(** * Date normalisation and period classification

    A shallow embedding of [data_stolen/5_add_category_period.py]:
    [normalize_cyrillic_to_latin], [extract_year_from_date] and
    [assign_period_category], together with the part of Python's [re], [str],
    [int] and [float] behaviour those three functions rely on.

    Text is a list of Unicode code points.  The character tables below are
    exact on Basic Latin and on the white-space set; beyond that they cover
    Latin-1, Latin Extended-A, basic Cyrillic and the dashes the source
    names.  Any other code point is classed as a caseless symbol that is
    neither a digit nor a word character. *)

From Stdlib Require Import Ascii String NArith ZArith QArith Bool Lia List Sorted.
From Stdlib Require Import DecimalPos.
Import ListNotations.

Close Scope Q_scope.
Close Scope string_scope.
Open Scope bool_scope.
Open Scope list_scope.

(** ** Text *)

Module Text.

Definition char := N.
Definition str := list char.

(** UTF-8 decoding, so that literals in this file are the source's own. *)
Fixpoint utf8 (bs : list N) : str :=
  match bs with
  | [] => []
  | b0 :: t0 =>
    if (b0 <? 128)%N then b0 :: utf8 t0
    else match t0 with
    | [] => []
    | b1 :: t1 =>
      if (b0 <? 224)%N then ((b0 - 192) * 64 + (b1 - 128))%N :: utf8 t1
      else match t1 with
      | [] => []
      | b2 :: t2 =>
        if (b0 <? 240)%N
        then ((b0 - 224) * 4096 + (b1 - 128) * 64 + (b2 - 128))%N :: utf8 t2
        else match t2 with
        | [] => []
        | b3 :: t3 =>
          ((b0 - 240) * 262144 + (b1 - 128) * 4096
           + (b2 - 128) * 64 + (b3 - 128))%N :: utf8 t3
        end
      end
    end
  end.

Definition U (s : string) : str :=
  utf8 (map N_of_ascii (list_ascii_of_string s)).

Definition in_range (lo hi c : N) : bool := ((lo <=? c) && (c <=? hi))%N.

(** [str.isspace] on one code point; also what [\s] matches. *)
Definition is_space (c : char) : bool :=
  in_range 9 13 c || in_range 28 32 c || (c =? 133)%N || (c =? 160)%N
  || (c =? 5760)%N || in_range 8192 8202 c || (c =? 8232)%N || (c =? 8233)%N
  || (c =? 8239)%N || (c =? 8287)%N || (c =? 12288)%N.

(** [\d]: the decimal digits of the modelled alphabet. *)
Definition is_digit (c : char) : bool := in_range 48 57 c.

(** [\w], which decides [\b]. *)
Definition is_word (c : char) : bool :=
  in_range 48 57 c || in_range 65 90 c || in_range 97 122 c || (c =? 95)%N
  || (c =? 170)%N || (c =? 178)%N || (c =? 179)%N || (c =? 181)%N
  || (c =? 185)%N || (c =? 186)%N || in_range 188 190 c
  || (in_range 192 383 c && negb (c =? 215)%N && negb (c =? 247)%N)
  || in_range 1024 1153 c || in_range 1162 1279 c.

(** Simple lower-case mapping, as the matcher applies it under IGNORECASE. *)
Definition to_lower (c : char) : char :=
  if in_range 65 90 c then (c + 32)%N
  else if in_range 192 222 c && negb (c =? 215)%N then (c + 32)%N
  else if in_range 1040 1071 c then (c + 32)%N
  else if in_range 1024 1039 c then (c + 80)%N
  else if (c =? 304)%N then 105%N
  else c.

Definition to_upper (c : char) : char :=
  if in_range 97 122 c then (c - 32)%N
  else if in_range 224 254 c && negb (c =? 247)%N then (c - 32)%N
  else if in_range 1072 1103 c then (c - 32)%N
  else if in_range 1104 1119 c then (c - 80)%N
  else if (c =? 305)%N then 73%N
  else if (c =? 383)%N then 83%N
  else c.

(** Case-insensitive comparison key: lower case, with dotless i and long s
    identified with [i] and [s]. *)
Definition case_key (c : char) : char :=
  let l := to_lower c in
  if (l =? 305)%N then 105%N else if (l =? 383)%N then 115%N else l.

(** [str.lower] and [str.upper] (full mappings: two code points can result). *)
Definition lower (s : str) : str :=
  flat_map (fun c => if (c =? 304)%N then [105; 775]%N else [to_lower c]) s.

Definition upper (s : str) : str :=
  flat_map (fun c => if (c =? 223)%N then [83; 83]%N else [to_upper c]) s.

Definition str_eqb (a b : str) : bool :=
  (length a =? length b)%nat && forallb (fun p => (fst p =? snd p)%N) (combine a b).

Fixpoint starts_with (p s : str) : bool :=
  match p, s with
  | [], _ => true
  | _ :: _, [] => false
  | a :: p', b :: s' => (a =? b)%N && starts_with p' s'
  end.

(** [needle in hay] *)
Fixpoint contains (needle hay : str) : bool :=
  starts_with needle hay
  || match hay with [] => false | _ :: hay' => contains needle hay' end.

(** [s.replace(old, new)] for a non-empty [old]: left to right, without
    overlap.  [skip] counts the code points of a copy of [old] still to drop. *)
Fixpoint replace_go (old new : str) (skip : nat) (s : str) : str :=
  match s with
  | [] => []
  | c :: s' =>
    match skip with
    | S k => replace_go old new k s'
    | O =>
      if starts_with old s
      then new ++ replace_go old new (length old - 1) s'
      else c :: replace_go old new 0 s'
    end
  end.

Definition replace (old new s : str) : str := replace_go old new 0 s.

Fixpoint lstrip (s : str) : str :=
  match s with
  | c :: s' => if is_space c then lstrip s' else s
  | [] => []
  end.

(** [s.strip()] *)
Definition strip (s : str) : str := rev (lstrip (rev (lstrip s))).

Definition substr (s : str) (b e : nat) : str := firstn (e - b) (skipn b s).

(** [int(s)] on a run of decimal digits. *)
Definition py_int (s : str) : Z :=
  fold_left (fun acc c => (acc * 10 + (Z.of_N c - 48))%Z) s 0%Z.

End Text.
Export Text.

(** ** Regular expressions

    The fragment of Python's [re] that the source uses: ordered alternation,
    greedy optional parts, numbered groups, repetition of one character
    class (greedy, or lazy as in [.*?]), the anchors [^], [$], [\b] and the
    negative look-ahead [(?!...)].  Matching is by backtracking; the matcher
    returns all the ways to match in the order backtracking tries them, and
    the first one is the match Python reports. *)

Module Regex.

Inductive cset : Type :=
| CChar (c : char)        (* one literal character *)
| CSet (l : list char)    (* [...] *)
| CDigit                  (* \d *)
| CSpace                  (* \s *)
| CAny.                   (* .  *)

Inductive regex : Type :=
| Eps
| Sym (p : cset)
| Cat (r1 r2 : regex)
| Alt (r1 r2 : regex)
| Rep (p : cset) (lo : nat) (hi : option nat) (greedy : bool)
| Opt (r : regex)
| Grp (n : nat) (r : regex)
| Bol
| Eol
| Wordb
| NotAhead (r : regex).

Definition cset_test (ic : bool) (p : cset) (c : char) : bool :=
  match p with
  | CChar a => if ic then (case_key c =? case_key a)%N else (c =? a)%N
  | CSet l =>
    if ic then existsb (fun a => (case_key c =? case_key a)%N) l
    else existsb (N.eqb c) l
  | CDigit => is_digit c
  | CSpace => is_space c
  | CAny => negb (c =? 10)%N
  end.

(** A match in progress: the position reached and the groups closed so far,
    the most recent first. *)
Definition caps := list (nat * (nat * nat)).
Definition mstate := (nat * caps)%type.

(** Number of characters from [s] that satisfy [p], at most [hi]. *)
Fixpoint run_length (ic : bool) (p : cset) (hi : option nat) (s : str) : nat :=
  match hi with
  | Some O => O
  | _ =>
    match s with
    | c :: s' =>
      if cset_test ic p c
      then S (run_length ic p (option_map Nat.pred hi) s')
      else O
    | [] => O
    end
  end.

Definition word_at (s : str) (i : nat) : bool :=
  match nth_error s i with Some c => is_word c | None => false end.

Definition at_boundary (s : str) (i : nat) : bool :=
  xorb (match i with O => false | S j => word_at s j end) (word_at s i).

Definition at_end (s : str) (i : nat) : bool :=
  (length s <=? i)%nat
  || ((S i =? length s)%nat
      && match nth_error s i with Some c => (c =? 10)%N | None => false end).

Fixpoint rmatch (ic : bool) (s : str) (r : regex) (st : mstate) : list mstate :=
  match r with
  | Eps => [st]
  | Sym p =>
    match nth_error s (fst st) with
    | Some c => if cset_test ic p c then [(S (fst st), snd st)] else []
    | None => []
    end
  | Cat r1 r2 => flat_map (rmatch ic s r2) (rmatch ic s r1 st)
  | Alt r1 r2 => rmatch ic s r1 st ++ rmatch ic s r2 st
  | Rep p lo hi greedy =>
    let n := run_length ic p hi (skipn (fst st) s) in
    let counts := seq lo (S n - lo) in
    map (fun k => (fst st + k, snd st)%nat) (if greedy then rev counts else counts)
  | Opt r1 => rmatch ic s r1 st ++ [st]
  | Grp g r1 =>
    map (fun st' => (fst st', (g, (fst st, fst st')) :: snd st'))
        (rmatch ic s r1 st)
  | Bol => if (fst st =? 0)%nat then [st] else []
  | Eol => if at_end s (fst st) then [st] else []
  | Wordb => if at_boundary s (fst st) then [st] else []
  | NotAhead r1 =>
    match rmatch ic s r1 st with
    | [] => [st]
    | _ :: _ => []
    end
  end.

(** A match object: the groups that took part, as spans of the subject. *)
Definition mobj := caps.

(** [re.match(r, s)] *)
Definition re_match (ic : bool) (r : regex) (s : str) : option mobj :=
  match rmatch ic s r (O, []) with
  | st :: _ => Some (snd st)
  | [] => None
  end.

Fixpoint search_from (ic : bool) (r : regex) (s : str) (starts : list nat)
  : option mobj :=
  match starts with
  | [] => None
  | i :: rest =>
    match rmatch ic s r (i, []) with
    | st :: _ => Some (snd st)
    | [] => search_from ic r s rest
    end
  end.

(** [re.search(r, s)]: the leftmost start that admits a match. *)
Definition re_search (ic : bool) (r : regex) (s : str) : option mobj :=
  search_from ic r s (seq 0 (S (length s))).

Fixpoint span_of (g : nat) (m : mobj) : option (nat * nat) :=
  match m with
  | [] => None
  | (g', sp) :: m' => if (g =? g')%nat then Some sp else span_of g m'
  end.

(** [m.group(g)]: [None] when the group took no part in the match. *)
Definition group (s : str) (m : mobj) (g : nat) : option str :=
  option_map (fun sp => substr s (fst sp) (snd sp)) (span_of g m).

(** Pattern syntax. *)
Definition lit (s : string) : regex :=
  fold_right (fun c r => Cat (Sym (CChar c)) r) Eps (U s).
Definition cat (rs : list regex) : regex := fold_right Cat Eps rs.
Fixpoint alts (rs : list regex) : regex :=
  match rs with
  | [] => NotAhead Eps
  | [r] => r
  | r :: rs' => Alt r (alts rs')
  end.
Definition words (ws : list string) : regex := alts (map lit ws).
Definition set (s : string) : cset := CSet (U s).
Definition star (p : cset) : regex := Rep p 0 None true.
Definition plus (p : cset) : regex := Rep p 1 None true.
Definition lazy_star (p : cset) : regex := Rep p 0 None false.
Definition rng (p : cset) (lo hi : nat) : regex := Rep p lo (Some hi) true.

End Regex.
Export Regex.

(** ** Numbers

    The extractor returns a Python [int] or [float].  A float is kept as the
    rational it denotes, in lowest terms, or as an infinity; the operations
    round to binary64 (to nearest, ties to even) as Python's do. *)

Module Num.

Inductive fl : Type :=
| Fin (q : Q)
| PInf
| NInf.

Inductive number : Type :=
| PyInt (z : Z)
| PyFloat (x : fl).

Inductive exn : Type :=
| OverflowError.

Inductive result (A : Type) : Type :=
| Ok (a : A)
| Err (e : exn).
Arguments Ok {A} a.
Arguments Err {A} e.

(** [floor (log2 (n/d))] for [n > 0]. *)
Definition q_exponent (n : Z) (d : positive) : Z :=
  let e := (Z.log2 n - Z.log2 (Zpos d))%Z in
  let below :=
    if (0 <=? e)%Z then (2 ^ e * Zpos d <=? n)%Z
    else (Zpos d <=? n * 2 ^ (- e))%Z in
  if below then e else (e - 1)%Z.

(** [m / 2^k] in lowest terms. *)
Fixpoint lowest (m : positive) (k : nat) : Q :=
  match m, k with
  | xO m', S k' => lowest m' k'
  | _, _ => Qmake (Zpos m) (Pos.shiftl_nat 1 k)
  end.

(** [m * 2^sh] for [m >= 0], in lowest terms. *)
Definition dyadic (m sh : Z) : Q :=
  if (sh <? 0)%Z then
    match m with
    | Zpos p => lowest p (Z.to_nat (- sh))
    | _ => 0%Q
    end
  else Qmake (m * 2 ^ sh) 1.

(** The binary64 value nearest to [q]; beyond the largest finite value, an
    infinity. *)
Definition round_b64 (q : Q) : fl :=
  let n := Z.abs (Qnum q) in
  let d := Qden q in
  if (n =? 0)%Z then Fin 0%Q else
  let e := Z.max (q_exponent n d) (-1022) in
  let sh := (e - 52)%Z in
  let num := if (sh <? 0)%Z then (n * 2 ^ (- sh))%Z else n in
  let den := if (sh <? 0)%Z then Zpos d else (Zpos d * 2 ^ sh)%Z in
  let m0 := (num / den)%Z in
  let r := (num mod den)%Z in
  let m :=
    if ((den <? 2 * r) || ((den =? 2 * r) && Z.odd m0))%Z
    then (m0 + 1)%Z else m0 in
  if ((971 <? sh) || ((sh =? 971) && (m =? 2 ^ 53)))%Z
  then (if (Qnum q <? 0)%Z then NInf else PInf)
  else Fin (if (Qnum q <? 0)%Z then Qopp (dyadic m sh) else dyadic m sh).

(** [a / b] on two ints, [b > 0]: correctly rounded, and an [OverflowError]
    when the quotient is too large for a float. *)
Definition truediv (a : Z) (b : positive) : result fl :=
  match round_b64 (Qmake a b) with
  | Fin q => Ok (Fin q)
  | _ => Err OverflowError
  end.

(** [x * k] for a float [x] and a positive int [k] that a float holds
    exactly. *)
Definition fmul (x : fl) (k : positive) : fl :=
  match x with
  | Fin q => round_b64 (Qmult q (Qmake (Zpos k) 1))
  | PInf => PInf
  | NInf => NInf
  end.

Definition fneg (x : fl) : fl :=
  match x with
  | Fin q => Fin (Qopp q)
  | PInf => NInf
  | NInf => PInf
  end.

(** Unary minus. *)
Definition neg (v : number) : number :=
  match v with
  | PyInt z => PyInt (- z)
  | PyFloat x => PyFloat (fneg x)
  end.

(** Comparison of a number with an int. *)
Definition cmp (v : number) (k : Z) : comparison :=
  match v with
  | PyInt z => (z ?= k)%Z
  | PyFloat (Fin q) => Qcompare q (inject_Z k)
  | PyFloat PInf => Gt
  | PyFloat NInf => Lt
  end.

Definition ltb (v : number) (k : Z) : bool :=
  match cmp v k with Lt => true | _ => false end.
Definition gtb (v : number) (k : Z) : bool :=
  match cmp v k with Gt => true | _ => false end.
Definition leb (v : number) (k : Z) : bool := negb (gtb v k).
Definition geb (v : number) (k : Z) : bool := negb (ltb v k).

Definition int (z : Z) : number := PyInt z.
Definition float (z : Z) : number := PyFloat (Fin (Qmake z 1)).
Definition half (z : Z) : number := PyFloat (Fin (Qred (Qmake z 2))).

End Num.
Export Num.

(** ** The extractor: [extract_year_from_date] *)

Module YearRules.

Local Open Scope string_scope.
Local Open Scope Z_scope.

(** What one block of the function does with the date string: nothing (the
    next block is tried), [return], or an exception. *)
Inductive outcome : Type :=
| Fall
| Return (v : number)
| Raise (e : exn).

Inductive mode : Type := Match | Search.

(** A block [m = re.match/search(pat, date_str, flags); if m: body]. *)
Record rule : Type := Rule {
  rule_mode : mode;
  rule_ic : bool;          (* re.IGNORECASE *)
  rule_pat : regex;
  rule_body : str -> mobj -> outcome
}.

Definition run (rl : rule) (date_str : str) : option mobj :=
  match rule_mode rl with
  | Match => re_match (rule_ic rl) (rule_pat rl) date_str
  | Search => re_search (rule_ic rl) (rule_pat rl) date_str
  end.

Definition apply_rule (rl : rule) (date_str : str) : outcome :=
  match run rl date_str with
  | Some m => rule_body rl date_str m
  | None => Fall
  end.

(** The blocks in sequence: the first that returns or raises decides. *)
Fixpoint cascade (rules : list rule) (date_str : str) : outcome :=
  match rules with
  | [] => Fall
  | rl :: rest =>
    match apply_rule rl date_str with
    | Fall => cascade rest date_str
    | o => o
    end
  end.

(** [normalize_cyrillic_to_latin.cyrillic_map], in insertion order. *)
Definition cyrillic_map : list (string * string) :=
  [ ("Х", "X"); ("х", "x"); ("І", "I"); ("і", "i"); ("В", "B"); ("С", "C");
    ("М", "M"); ("Ð¥", "X"); ("Ð†", "I"); ("у", "y") ].

Definition normalize_cyrillic_to_latin (text : str) : str :=
  match text with
  | [] => text
  | _ =>
    fold_left (fun t p => replace (U (fst p)) (U (snd p)) t) cyrillic_map text
  end.

(** [century_patterns], in insertion order (the two loops iterate over it). *)
Definition century_patterns : list (string * Z) :=
  [ ("XX", 1950); ("XIX", 1850); ("XVIII", 1750); ("XVII", 1650);
    ("XVI", 1550); ("XV", 1450); ("XIV", 1350); ("XIII", 1250);
    ("XII", 1150); ("XI", 1050); ("X", 950); ("IX", 850); ("VIII", 750);
    ("VII", 650); ("VI", 550); ("V", 450); ("IV", 350); ("III", 250);
    ("II", 150); ("I", 50) ].

Definition millennium_map : list (string * Z) :=
  [ ("I", 1); ("II", 2); ("III", 3); ("IV", 4); ("V", 5); ("VI", 6);
    ("VII", 7); ("VIII", 8); ("IX", 9); ("X", 10) ].

(** [d[key]] guarded by [key in d]. *)
Fixpoint lookup (d : list (string * Z)) (key : str) : option Z :=
  match d with
  | [] => None
  | (k, v) :: d' => if str_eqb (U k) key then Some v else lookup d' key
  end.

(** [m.group(g)] of a group that is part of every match. *)
Definition grp (date_str : str) (m : mobj) (g : nat) : str :=
  match group date_str m g with Some x => x | None => [] end.

(** Truth value of an optional group: [None] and [''] are false. *)
Definition truthy (x : option str) : bool :=
  match x with Some (_ :: _) => true | _ => false end.

(** [x and 'BC' in x.upper()] *)
Definition says_bc (x : option str) : bool :=
  match x with
  | Some (c :: t) => contains (U "BC") (upper (c :: t))
  | _ => false
  end.

(** [x and ('BC' in x.upper() or 'ВС' in x)], the second pair Cyrillic. *)
Definition says_bc_cyr (x : option str) : bool :=
  match x with
  | Some (c :: t) =>
    contains (U "BC") (upper (c :: t)) || contains (U "ВС") (c :: t)
  | _ => false
  end.

Definition has (w : string) (s : str) : bool := contains (U w) s.

(** [return -(a / b) if negate else a / b] *)
Definition ret_div (a : Z) (b : positive) (negate : bool) : outcome :=
  match truediv a b with
  | Ok x => Return (PyFloat (if negate then fneg x else x))
  | Err e => Raise e
  end.

Definition ret_int (a : Z) (negate : bool) : outcome :=
  Return (PyInt (if negate then - a else a)).

Definition roman : regex := plus (set "IVX").
Definition ws : regex := star CSpace.
Definition ws1 : regex := plus CSpace.
Definition dash : cset := set "-–".
Definition ordinal : regex := words ["st"; "nd"; "rd"; "th"].
Definition centuries : regex := cat [lit "centurie"; Opt (lit "s")].
Definition bc_ad : regex := words ["BC"; "AD"].
Definition bc_ad_cyr : regex := words ["BC"; "AD"; "ВС"].

(** [^([IVX]+)\s*-\s*([IVX]+)$], with [len(date_str) < 10]. *)
Definition lone_roman_match : rule :=
  Rule Match true
    (cat [Bol; Grp 1 roman; ws; lit "-"; ws; Grp 2 roman; Eol])
    (fun date_str m =>
       if (length date_str <? 10)%nat then
         let roman1 := grp date_str m 1 in
         let roman2 := grp date_str m 2 in
         match lookup century_patterns roman1, lookup century_patterns roman2 with
         | Some year1, Some year2 => ret_div (year1 + year2) 2 false
         | _, _ => Fall
         end
       else Fall).

(** [^([IVX]+)$], with [2 <= len(date_str) <= 5]. *)
Definition single_roman_match : rule :=
  Rule Match true
    (cat [Bol; Grp 1 roman; Eol])
    (fun date_str m =>
       if ((2 <=? length date_str) && (length date_str <=? 5))%nat then
         match lookup century_patterns (grp date_str m 1) with
         | Some year => Return (PyInt year)
         | None => Fall
         end
       else Fall).

(** [^(\d{1,4})[-–](\d{1,4})(\s*(AD|BC))?$] *)
Definition year_only_range : rule :=
  Rule Match false
    (cat [Bol; Grp 1 (rng CDigit 1 4); Sym dash; Grp 2 (rng CDigit 1 4);
          Opt (Grp 3 (cat [ws; Grp 4 (words ["AD"; "BC"])])); Eol])
    (fun date_str m =>
       let year1 := py_int (grp date_str m 1) in
       let year2 := py_int (grp date_str m 2) in
       let suffix := group date_str m 4 in
       ret_div (year1 + year2) 2 (says_bc suffix)).

(** [^(\d{1,3})(\s*(AD|BC))?$] *)
Definition year_only : rule :=
  Rule Match false
    (cat [Bol; Grp 1 (rng CDigit 1 3);
          Opt (Grp 2 (cat [ws; Grp 3 (words ["AD"; "BC"])])); Eol])
    (fun date_str m =>
       let year := py_int (grp date_str m 1) in
       let suffix := group date_str m 3 in
       if says_bc suffix then Return (PyInt (- year))
       else if year <? 500 then Return (PyInt year)
       else Fall).

(** [end\s+of\s+the\s+([IVX]+)[-–]([IVX]+)\s*centuries?\s*(BC)?] *)
Definition end_range_match : rule :=
  Rule Search true
    (cat [lit "end"; ws1; lit "of"; ws1; lit "the"; ws1; Grp 1 roman;
          Sym dash; Grp 2 roman; ws; centuries; ws; Opt (Grp 3 (lit "BC"))])
    (fun date_str m =>
       let roman2 := grp date_str m 2 in
       let is_bc := truthy (group date_str m 3) in
       match lookup century_patterns roman2 with
       | Some y => ret_int (y + 38) is_bc
       | None => Fall
       end).

(** [([IVX]+)\s*[-–]\s*(second|first|third|fourth)\s*quarter\s*([IVX]+)\s*centuries?\s*(BC)?] *)
Definition quarter_century_match : rule :=
  Rule Search true
    (cat [Grp 1 roman; ws; Sym dash; ws;
          Grp 2 (words ["second"; "first"; "third"; "fourth"]); ws;
          lit "quarter"; ws; Grp 3 roman; ws; centuries; ws;
          Opt (Grp 4 (lit "BC"))])
    (fun date_str m =>
       let roman1 := grp date_str m 1 in
       let quarter := lower (grp date_str m 2) in
       let roman2 := grp date_str m 3 in
       let is_bc := truthy (group date_str m 4) in
       match lookup century_patterns roman1, lookup century_patterns roman2 with
       | Some year1, Some year2 =>
         let year2 :=
           if has "first" quarter then year2 - 38
           else if has "second" quarter then year2 - 12
           else if has "third" quarter then year2 + 12
           else if has "fourth" quarter then year2 + 38
           else year2 in
         ret_div (year1 + year2) 2 is_bc
       | _, _ => Fall
       end).

(** [^(\d{4})\s*century] *)
Definition wrong_format : rule :=
  Rule Match true
    (cat [Bol; Grp 1 (rng CDigit 4 4); ws; lit "century"])
    (fun date_str m => Return (PyInt (py_int (grp date_str m 1)))).

(** [\b([IVX]+)\s*[-–]?\s*([IVX]+)\s*centuries?\s*(BC)?] *)
Definition century_space_range : rule :=
  Rule Search true
    (cat [Wordb; Grp 1 roman; ws; Opt (Sym dash); ws; Grp 2 roman; ws;
          centuries; ws; Opt (Grp 3 (lit "BC"))])
    (fun date_str m =>
       let roman1 := grp date_str m 1 in
       let roman2 := grp date_str m 2 in
       let is_bc := truthy (group date_str m 3) in
       match lookup century_patterns roman1, lookup century_patterns roman2 with
       | Some year1, Some year2 => ret_div (year1 + year2) 2 is_bc
       | _, _ => Fall
       end).

(** [(early|late|end)\s+([IVX]+)th\s*century] *)
Definition early_th_match : rule :=
  Rule Search true
    (cat [Grp 1 (words ["early"; "late"; "end"]); ws1; Grp 2 roman; lit "th";
          ws; lit "century"])
    (fun date_str m =>
       let part := lower (grp date_str m 1) in
       match lookup century_patterns (grp date_str m 2) with
       | Some base_year =>
         if has "late" part || has "end" part then Return (PyInt (base_year + 38))
         else if has "early" part then Return (PyInt (base_year - 38))
         else Return (PyInt base_year)
       | None => Fall
       end).

(** [(early|late|end|beginning)\s+(\d{1,2})(st|nd|rd|th)\s*cent] *)
Definition early_arabic_cent : rule :=
  Rule Search true
    (cat [Grp 1 (words ["early"; "late"; "end"; "beginning"]); ws1;
          Grp 2 (rng CDigit 1 2); Grp 3 ordinal; ws; lit "cent"])
    (fun date_str m =>
       let part := lower (grp date_str m 1) in
       let century_num := py_int (grp date_str m 2) in
       let base_year := (century_num - 1) * 100 + 50 in
       if has "late" part || has "end" part then Return (PyInt (base_year + 38))
       else if has "early" part || has "beginning" part
       then Return (PyInt (base_year - 38))
       else Return (PyInt base_year)).

(** [^(\d{1,4})[/‒–-](\d{1,4})(\s*г\.?)?(\s*(BC|AD|ВС))?$] *)
Definition slash_range : rule :=
  Rule Match false
    (cat [Bol; Grp 1 (rng CDigit 1 4); Sym (set "/‒–-"); Grp 2 (rng CDigit 1 4);
          Opt (Grp 3 (cat [ws; lit "г"; Opt (lit ".")]));
          Opt (Grp 4 (cat [ws; Grp 5 bc_ad_cyr])); Eol])
    (fun date_str m =>
       let year1 := py_int (grp date_str m 1) in
       let year2 := py_int (grp date_str m 2) in
       let suffix := group date_str m 5 in
       ret_div (year1 + year2) 2 (says_bc_cyr suffix)).

(** [^(\d{1,4})/(\d{1,4})[-–](\d{1,4})/(\d{1,4})(\s*(BC|AD|ВС))?$] *)
Definition complex_slash : rule :=
  Rule Match false
    (cat [Bol; Grp 1 (rng CDigit 1 4); lit "/"; Grp 2 (rng CDigit 1 4);
          Sym dash; Grp 3 (rng CDigit 1 4); lit "/"; Grp 4 (rng CDigit 1 4);
          Opt (Grp 5 (cat [ws; Grp 6 bc_ad_cyr])); Eol])
    (fun date_str m =>
       let year1_a := py_int (grp date_str m 1) in
       let year1_b := py_int (grp date_str m 2) in
       let year2_a := py_int (grp date_str m 3) in
       let year2_b := py_int (grp date_str m 4) in
       let suffix := group date_str m 6 in
       ret_div (year1_a + year1_b + year2_a + year2_b) 4 (says_bc_cyr suffix)).

(** [(\d{1,4})/(\d{1,4})\s+or\s+(\d{1,4})/(\d{1,4})] *)
Definition or_alternative : rule :=
  Rule Search true
    (cat [Grp 1 (rng CDigit 1 4); lit "/"; Grp 2 (rng CDigit 1 4); ws1;
          lit "or"; ws1; Grp 3 (rng CDigit 1 4); lit "/";
          Grp 4 (rng CDigit 1 4)])
    (fun date_str m =>
       let year1 := py_int (grp date_str m 1) in
       let year2 := py_int (grp date_str m 2) in
       let year3 := py_int (grp date_str m 3) in
       let year4 := py_int (grp date_str m 4) in
       ret_div (year1 + year2 + year3 + year4) 4 false).

(** [^(\d{1,4})\s*г\.?(\s*(BC|AD|ВС))?$] *)
Definition year_g : rule :=
  Rule Match true
    (cat [Bol; Grp 1 (rng CDigit 1 4); ws; lit "г"; Opt (lit ".");
          Opt (Grp 2 (cat [ws; Grp 3 bc_ad_cyr])); Eol])
    (fun date_str m =>
       let year := py_int (grp date_str m 1) in
       let suffix := group date_str m 3 in
       ret_int year (says_bc_cyr suffix)).

Definition quarter_word : regex :=
  words ["beginning"; "last"; "first"; "second"; "third"; "fourth"].

(** [(beginning|last|first|second|third|fourth)\s+quarter\s+of\s+the\s+([IVX]+)\s*(st|nd|rd|th)?\s*[-–]\s*(beginning|last|first|second|third|fourth)?\s*of\s+the\s+([IVX]+)\s*(st|nd|rd|th)?\s*century] *)
Definition ordinal_range : rule :=
  Rule Search true
    (cat [Grp 1 quarter_word; ws1; lit "quarter"; ws1; lit "of"; ws1;
          lit "the"; ws1; Grp 2 roman; ws; Opt (Grp 3 ordinal); ws; Sym dash;
          ws; Opt (Grp 4 quarter_word); ws; lit "of"; ws1; lit "the"; ws1;
          Grp 5 roman; ws; Opt (Grp 6 ordinal); ws; lit "century"])
    (fun date_str m =>
       let quarter1 := lower (grp date_str m 1) in
       let roman1 := grp date_str m 2 in
       let quarter2 :=
         if truthy (group date_str m 4) then lower (grp date_str m 4)
         else U "beginning" in
       let roman2 := grp date_str m 5 in
       match lookup century_patterns roman1, lookup century_patterns roman2 with
       | Some year1, Some year2 =>
         let year1 :=
           if has "last" quarter1 || has "fourth" quarter1 then year1 + 38
           else if has "first" quarter1 || has "beginning" quarter1
           then year1 - 38
           else year1 in
         let year2 :=
           if has "beginning" quarter2 || has "first" quarter2 then year2 - 38
           else year2 in
         ret_div (year1 + year2) 2 false
       | _, _ => Fall
       end).

(** [(beginning|start|early)\s+of\s+the\s+([IVX]+)(st|nd|rd|th|d)\s*century] *)
Definition beginning_ordinal : rule :=
  Rule Search true
    (cat [Grp 1 (words ["beginning"; "start"; "early"]); ws1; lit "of"; ws1;
          lit "the"; ws1; Grp 2 roman;
          Grp 3 (words ["st"; "nd"; "rd"; "th"; "d"]); ws; lit "century"])
    (fun date_str m =>
       match lookup century_patterns (grp date_str m 2) with
       | Some y => Return (PyInt (y - 38))
       | None => Fall
       end).

(** [(second|first)\s+half\s+(\d{1,2})(st|nd|rd|th)\s*[-–]\s*(first|second|last)\s+half\s+(\d{1,2})(st|nd|rd|th)\s*century] *)
Definition half_ordinal : rule :=
  Rule Search true
    (cat [Grp 1 (words ["second"; "first"]); ws1; lit "half"; ws1;
          Grp 2 (rng CDigit 1 2); Grp 3 ordinal; ws; Sym dash; ws;
          Grp 4 (words ["first"; "second"; "last"]); ws1; lit "half"; ws1;
          Grp 5 (rng CDigit 1 2); Grp 6 ordinal; ws; lit "century"])
    (fun date_str m =>
       let half1 := lower (grp date_str m 1) in
       let century1 := py_int (grp date_str m 2) in
       let half2 := lower (grp date_str m 4) in
       let century2 := py_int (grp date_str m 5) in
       let year1 := (century1 - 1) * 100 + 50 in
       let year2 := (century2 - 1) * 100 + 50 in
       let year1 :=
         if has "second" half1 then year1 + 12
         else if has "first" half1 then year1 - 12
         else year1 in
       let year2 :=
         if has "first" half2 then year2 - 12
         else if has "second" half2 then year2 + 12
         else year2 in
       ret_div (year1 + year2) 2 false).

Definition years_ago : regex :=
  cat [ws; lit "thousand"; ws; lit "year"; Opt (lit "s"); ws; lit "ago"].

(** [(\d+)-(\d+)\s*thousand\s*years?\s*ago]:
    [return -((thou1 + thou2) / 2 * 1000)] *)
Definition thousand_range_match : rule :=
  Rule Search true
    (cat [Grp 1 (plus CDigit); lit "-"; Grp 2 (plus CDigit); years_ago])
    (fun date_str m =>
       let thou1 := py_int (grp date_str m 1) in
       let thou2 := py_int (grp date_str m 2) in
       match truediv (thou1 + thou2) 2 with
       | Ok x => Return (PyFloat (fneg (fmul x 1000)))
       | Err e => Raise e
       end).

(** [(\d+)\s*thousand\s*years?\s*ago] *)
Definition thousand_match : rule :=
  Rule Search true
    (cat [Grp 1 (plus CDigit); years_ago])
    (fun date_str m =>
       let thou := py_int (grp date_str m 1) in
       Return (PyInt (- (thou * 1000)))).

(** [\b([IVX]+)\s*millennium\s*(BC|AD)?\b] *)
Definition millennium_single_match : rule :=
  Rule Search true
    (cat [Wordb; Grp 1 roman; ws; lit "millennium"; ws; Opt (Grp 2 bc_ad);
          Wordb])
    (fun date_str m =>
       let roman_num := grp date_str m 1 in
       let is_bc := says_bc (group date_str m 2) in
       match lookup millennium_map roman_num with
       | Some mill_num =>
         if is_bc then Return (PyInt (- (mill_num * 1000 - 500)))
         else Return (PyInt ((mill_num - 1) * 1000 + 500))
       | None => Fall
       end).

(** [(\d+)-(\d+)\s*millennium\s*BC]:
    [return -(mill1 * 1000 + mill2 * 1000) / 2] *)
Definition millennium_match : rule :=
  Rule Search true
    (cat [Grp 1 (plus CDigit); lit "-"; Grp 2 (plus CDigit); ws;
          lit "millennium"; ws; lit "BC"])
    (fun date_str m =>
       let mill1 := py_int (grp date_str m 1) in
       let mill2 := py_int (grp date_str m 2) in
       ret_div (- (mill1 * 1000 + mill2 * 1000)) 2 false).

(** [(\d+)[-–](\d+)s\s*(BC)?] *)
Definition decade_range_match : rule :=
  Rule Search true
    (cat [Grp 1 (plus CDigit); Sym dash; Grp 2 (plus CDigit); lit "s"; ws;
          Opt (Grp 3 (lit "BC"))])
    (fun date_str m =>
       let year1 := py_int (grp date_str m 1) in
       let year2 := py_int (grp date_str m 2) in
       let is_bc := truthy (group date_str m 3) in
       ret_div (year1 + year2) 2 is_bc).

(** [(\d+)s\s*(BC)?] *)
Definition decade_match : rule :=
  Rule Search true
    (cat [Grp 1 (plus CDigit); lit "s"; ws; Opt (Grp 2 (lit "BC"))])
    (fun date_str m =>
       let year := py_int (grp date_str m 1) in
       let is_bc := truthy (group date_str m 2) in
       ret_int (year + 5) is_bc).

(** [(end|ending|late|second half|first half|beginning|start|early|middle|mid).*?([IVX]+)\s*century\s*(BC|AD)?] *)
Definition part_of_century_match : rule :=
  Rule Search true
    (cat [Grp 1 (words ["end"; "ending"; "late"; "second half"; "first half";
                        "beginning"; "start"; "early"; "middle"; "mid"]);
          lazy_star CAny; Grp 2 roman; ws; lit "century"; ws;
          Opt (Grp 3 bc_ad)])
    (fun date_str m =>
       let part := lower (grp date_str m 1) in
       let is_bc := says_bc (group date_str m 3) in
       match lookup century_patterns (grp date_str m 2) with
       | Some base_year =>
         let year :=
           if has "end" part || has "late" part || has "ending" part
           then base_year + 38
           else if has "second half" part then base_year + 12
           else if has "first half" part || has "early" part
                   || has "beginning" part || has "start" part
           then base_year - 38
           else base_year in
         ret_int year is_bc
       | None => Fall
       end).

(** [([IVX]+)\s*-\s*(first|second|third|fourth|last)\s*q\.?\s*([IVX]+)\s*century\s*(BC|AD)?] *)
Definition quarter_range_match : rule :=
  Rule Search true
    (cat [Grp 1 roman; ws; lit "-"; ws;
          Grp 2 (words ["first"; "second"; "third"; "fourth"; "last"]); ws;
          lit "q"; Opt (lit "."); ws; Grp 3 roman; ws; lit "century"; ws;
          Opt (Grp 4 bc_ad)])
    (fun date_str m =>
       let roman1 := grp date_str m 1 in
       let quarter := lower (grp date_str m 2) in
       let roman2 := grp date_str m 3 in
       let is_bc := says_bc (group date_str m 4) in
       match lookup century_patterns roman1, lookup century_patterns roman2 with
       | Some year1, Some year2 =>
         let year2 :=
           if has "first" quarter then year2 - 38
           else if has "second" quarter then year2 - 12
           else if has "third" quarter then year2 + 12
           else if has "fourth" quarter || has "last" quarter then year2 + 38
           else year2 in
         ret_div (year1 + year2) 2 is_bc
       | _, _ => Fall
       end).

(** One turn of the loop [for numeral, year in century_patterns.items()]
    with the pattern [\b{numeral}\b\s*century\s*BC]: only the numerals I to
    VIII have a branch that returns. *)
Definition century_bc (entry : string * Z) : rule :=
  let numeral := fst entry in
  Rule Search true
    (cat [Wordb; lit numeral; Wordb; ws; lit "century"; ws; lit "BC"])
    (fun _ _ =>
       if String.eqb numeral "I" then Return (PyInt (-50))
       else if String.eqb numeral "II" then Return (PyInt (-150))
       else if String.eqb numeral "III" then Return (PyInt (-250))
       else if String.eqb numeral "IV" then Return (PyInt (-350))
       else if String.eqb numeral "V" then Return (PyInt (-450))
       else if String.eqb numeral "VI" then Return (PyInt (-550))
       else if String.eqb numeral "VII" then Return (PyInt (-650))
       else if String.eqb numeral "VIII" then Return (PyInt (-750))
       else Fall).

(** One turn of the second loop, pattern [\b{numeral}\b\s*century]. *)
Definition century_ad (entry : string * Z) : rule :=
  Rule Search true
    (cat [Wordb; lit (fst entry); Wordb; ws; lit "century"])
    (fun _ _ => Return (PyInt (snd entry))).

(** [([IVX]+)-([IVX]+)\s*century], with ['BC' in date_str]. *)
Definition range_match : rule :=
  Rule Search true
    (cat [Grp 1 roman; lit "-"; Grp 2 roman; ws; lit "century"])
    (fun date_str m =>
       let num1 := grp date_str m 1 in
       let num2 := grp date_str m 2 in
       match lookup century_patterns num1, lookup century_patterns num2 with
       | Some year1, Some year2 =>
         if has "BC" date_str then ret_div (- (year1 + year2)) 2 false
         else ret_div (year1 + year2) 2 false
       | _, _ => Fall
       end).

(** [([IVX]+)\s*century\s*BC\s*-\s*([IVX]+)\s*century(?!\s*BC)] *)
Definition complex_match : rule :=
  Rule Search true
    (cat [Grp 1 roman; ws; lit "century"; ws; lit "BC"; ws; lit "-"; ws;
          Grp 2 roman; ws; lit "century"; NotAhead (cat [ws; lit "BC"])])
    (fun date_str m =>
       let bc_num := grp date_str m 1 in
       let ad_num := grp date_str m 2 in
       match lookup century_patterns bc_num, lookup century_patterns ad_num with
       | Some y1, Some y2 => ret_div (- y1 + y2) 2 false
       | _, _ => Fall
       end).

(** [^(\d{4})-(\d{4})$] *)
Definition year_range_match : rule :=
  Rule Match false
    (cat [Bol; Grp 1 (rng CDigit 4 4); lit "-"; Grp 2 (rng CDigit 4 4); Eol])
    (fun date_str m =>
       let year1 := py_int (grp date_str m 1) in
       let year2 := py_int (grp date_str m 2) in
       ret_div (year1 + year2) 2 false).

(** [^(\d{4})$] *)
Definition year_match : rule :=
  Rule Match false
    (cat [Bol; Grp 1 (rng CDigit 4 4); Eol])
    (fun date_str m => Return (PyInt (py_int (grp date_str m 1)))).

(** The blocks of the function body, top to bottom. *)
Definition rules : list rule :=
  ([ lone_roman_match; single_roman_match; year_only_range; year_only;
     end_range_match; quarter_century_match; wrong_format;
     century_space_range; early_th_match; early_arabic_cent; slash_range;
     complex_slash; or_alternative; year_g; ordinal_range; beginning_ordinal;
     half_ordinal; thousand_range_match; thousand_match;
     millennium_single_match; millennium_match; decade_range_match;
     decade_match; part_of_century_match; quarter_range_match ]
   ++ map century_bc century_patterns
   ++ map century_ad century_patterns
   ++ [ range_match; complex_match; year_range_match; year_match ])%list.

(** [extract_year_from_date(date_str)].  The argument is [None] for a
    missing value ([pd.isna]); the result is [None] for Python's [None]. *)
Definition extract_year_from_date (date_str : option str)
  : result (option number) :=
  match date_str with
  | None => Ok None
  | Some [] => Ok None
  | Some s =>
    let date_str := normalize_cyrillic_to_latin (strip s) in
    match cascade rules date_str with
    | Fall => Ok None
    | Return v => Ok (Some v)
    | Raise e => Err e
    end
  end.

End YearRules.
Export YearRules.

(** ** The classifier: [assign_period_category] *)

Module Periods.

Local Open Scope string_scope.
Local Open Scope Z_scope.

Record period : Type := Period {
  name : string;
  start : Z;
  stop : Z;            (* the key ['end'] *)
  label : string
}.

Definition HISTORICAL_PERIODS : list period :=
  [ Period "Paleolithic Period" (-1400000) (-10000) "Paleolithic Period";
    Period "Neolithic Period" (-10000) (-4500) "Neolithic Period";
    Period "Bronze Age" (-4500) (-1200) "Bronze Age";
    Period "Iron Age" (-1200) (-700) "Iron Age";
    Period "Scythian-Sarmatian Era" (-700) 250 "Scythian-Sarmatian Era";
    Period "Greek and Roman Period" (-250) 375 "Greek and Roman Period";
    Period "Migration Period" 370 700 "Migration Period";
    Period "Early Medieval Period" 600 900 "Early Medieval Period";
    Period "Kievan Rus' Period" 839 1240 "Kievan Rus Period";
    Period "Mongol Invasion and Domination" 1239 1400
           "Mongol Invasion and Domination";
    Period "Kingdom of Galicia-Volhynia" 1197 1340
           "Kingdom of Galicia-Volhynia";
    Period "Lithuanian and Polish Period" 1340 1648
           "Lithuanian and Polish Period";
    Period "Cossack Hetmanate Period" 1648 1764 "Cossack Hetmanate Period";
    Period "Ukraine under the Russian Empire" 1764 1917
           "Ukraine under the Russian Empire";
    Period "Ukraine's First Independence" 1917 1921
           "Ukraine's First Independence";
    Period "Soviet Period" 1921 1991 "Soviet Period";
    Period "Independence Period" 1991 2030 "Independence Period" ].

(** A cell of the [year_for_timeline] column that is not missing: a string
    or a float. *)
Inductive cell : Type :=
| CStr (s : str)
| CNum (x : fl).

(** The three columns the function reads; [None] is a missing value. *)
Record row : Type := Row {
  year_for_timeline : option cell;
  date : option str;
  date_normalized : option str
}.

(** [s.split(sep)] *)
Fixpoint split (sep : char) (s : str) : list str :=
  match s with
  | [] => [[]]
  | c :: s' =>
    if (c =? sep)%N then [] :: split sep s'
    else match split sep s' with
         | w :: ws => (c :: w) :: ws
         | [] => [[c]]
         end
  end.

(** [int(s)] allows white space around the digits. *)
Definition py_int_ws (s : str) : Z := py_int (strip s).

Definition four_digits : regex := Grp 1 (rng CDigit 4 4).

(** The year the row yields: [year_for_timeline], else [date], else
    [date_normalized]. *)
Definition year_of_row (r : row) : result (option number) :=
  let year :=
    match year_for_timeline r with
    | Some (CStr timeline_val) =>
      match re_match false (cat [Bol; four_digits]) timeline_val with
      | Some m => Some (PyInt (py_int (grp timeline_val m 1)))
      | None => None
      end
    | Some (CNum x) => Some (PyFloat x)
    | None => None
    end in
  match year with
  | Some y => Ok (Some y)
  | None =>
    match
      match date r with
      | Some d => extract_year_from_date (Some d)
      | None => Ok None
      end
    with
    | Err e => Err e
    | Ok (Some y) => Ok (Some y)
    | Ok None =>
      match date_normalized r with
      | Some (c :: t) =>
        let date_norm := c :: t in
        match re_match false
                (cat [Bol; rng CDigit 4 4; lit "-"; rng CDigit 4 4; Eol])
                date_norm with
        | Some _ =>
          let parts := split 45%N date_norm in
          match truediv (py_int_ws (nth 0 parts []) + py_int_ws (nth 1 parts []))
                        2 with
          | Ok x => Ok (Some (PyFloat x))
          | Err e => Err e
          end
        | None =>
          match re_match false (cat [Bol; rng CDigit 4 4; Eol]) date_norm with
          | Some _ => Ok (Some (PyInt (py_int_ws date_norm)))
          | None => Ok None
          end
        end
      | _ => Ok None
      end
    end
  end.

Definition matching (year : number) (ps : list period) : list period :=
  filter (fun p => geb year (start p) && leb year (stop p)) ps.

Definition named (n : string) (ps : list period) : bool :=
  existsb (fun p => String.eqb (name p) n) ps.

(** [next(p['label'] for p in matching_periods if p['name'] == n)], used
    only where [n] is among the names. *)
Definition label_of (n : string) (ps : list period) : string :=
  match find (fun p => String.eqb (name p) n) ps with
  | Some p => label p
  | None => ""
  end.

(** The label for a year that was found. *)
Definition period_of_year (year : number) : string :=
  let matching_periods := matching year HISTORICAL_PERIODS in
  match matching_periods with
  | [] =>
    if ltb year (-10000) then "Pre-Neolithic Period"
    else if gtb year 2030 then "Contemporary Period"
    else "Unknown Period"
  | [p] => label p
  | first :: _ =>
    if named "Mongol Invasion and Domination" matching_periods
       && named "Kingdom of Galicia-Volhynia" matching_periods
    then
      if ltb year 1300
      then label_of "Mongol Invasion and Domination" matching_periods
      else label_of "Kingdom of Galicia-Volhynia" matching_periods
    else if named "Kievan Rus' Period" matching_periods
            && named "Kingdom of Galicia-Volhynia" matching_periods
    then label_of "Kievan Rus' Period" matching_periods
    else if named "Scythian-Sarmatian Era" matching_periods
            && named "Greek and Roman Period" matching_periods
    then
      if gtb year 0
      then label_of "Greek and Roman Period" matching_periods
      else label_of "Scythian-Sarmatian Era" matching_periods
    else if named "Migration Period" matching_periods
            && named "Early Medieval Period" matching_periods
    then
      if ltb year 650
      then label_of "Migration Period" matching_periods
      else label_of "Early Medieval Period" matching_periods
    else label first
  end.

Definition label_of_year (year : option number) : string :=
  match year with
  | None => "Unknown Period"
  | Some y => period_of_year y
  end.

(** [assign_period_category(row)] *)
Definition assign_period_category (r : row) : result string :=
  match year_of_row r with
  | Ok year => Ok (label_of_year year)
  | Err e => Err e
  end.

(** A row with only the [date] column filled. *)
Definition date_row (d : option str) : row := Row None d None.

(** The labels the classifier can hand out. *)
Definition closed_labels : list string :=
  (map label HISTORICAL_PERIODS
   ++ ["Unknown Period"; "Pre-Neolithic Period"; "Contemporary Period"])%list.

End Periods.
Export Periods.

(** ** The display string: [create_date_normalized], and [main] on a row *)

Module Normalized.

Local Open Scope string_scope.
Local Open Scope Z_scope.

Fixpoint uint_chars (d : Decimal.uint) : str :=
  match d with
  | Decimal.Nil => []
  | Decimal.D0 d' => 48%N :: uint_chars d'
  | Decimal.D1 d' => 49%N :: uint_chars d'
  | Decimal.D2 d' => 50%N :: uint_chars d'
  | Decimal.D3 d' => 51%N :: uint_chars d'
  | Decimal.D4 d' => 52%N :: uint_chars d'
  | Decimal.D5 d' => 53%N :: uint_chars d'
  | Decimal.D6 d' => 54%N :: uint_chars d'
  | Decimal.D7 d' => 55%N :: uint_chars d'
  | Decimal.D8 d' => 56%N :: uint_chars d'
  | Decimal.D9 d' => 57%N :: uint_chars d'
  end.

(** An int as an f-string prints it. *)
Definition py_str (n : Z) : str :=
  match n with
  | Z0 => [48%N]
  | Zpos p => uint_chars (Pos.to_uint p)
  | Zneg p => 45%N :: uint_chars (Pos.to_uint p)
  end.

(** [abs(x)] *)
Definition py_abs (v : number) : number :=
  match v with
  | PyInt z => PyInt (Z.abs z)
  | PyFloat (Fin q) => PyFloat (Fin (Qmake (Z.abs (Qnum q)) (Qden q)))
  | PyFloat _ => PyFloat PInf
  end.

(** [int(x)]: a float is cut toward zero, an infinity raises. *)
Definition py_trunc (v : number) : result Z :=
  match v with
  | PyInt z => Ok z
  | PyFloat (Fin q) => Ok (Z.quot (Qnum q) (Zpos (Qden q)))
  | PyFloat _ => Err OverflowError
  end.

(** [create_date_normalized(row)]: the year is found as in
    [assign_period_category]; the result is [''], ["N BC"] or ["N AD"]. *)
Definition create_date_normalized (r : row) : result str :=
  match year_of_row r with
  | Err e => Err e
  | Ok None => Ok []
  | Ok (Some year) =>
    if ltb year 0 then
      match py_trunc (py_abs year) with
      | Ok n => Ok (py_str n ++ U " BC")%list
      | Err e => Err e
      end
    else
      match py_trunc year with
      | Ok n => Ok (py_str n ++ U " AD")%list
      | Err e => Err e
      end
  end.

(** What [main] does with one row: the column [date_normalized] is
    overwritten first, and the period is assigned from the row so changed.
    The result is the pair of the two new cells. *)
Definition main_row (r : row) : result (str * string) :=
  match create_date_normalized r with
  | Err e => Err e
  | Ok date_norm =>
    match assign_period_category
            (Row (year_for_timeline r) (date r) (Some date_norm)) with
    | Ok period => Ok (date_norm, period)
    | Err e => Err e
    end
  end.

End Normalized.
Export Normalized.

(** ** Definitions used by the proofs *)

Module Analysis.

Local Open Scope Z_scope.

(** The digit skeleton of a text: every decimal digit replaced by [0]. *)
Definition skel (c : char) : char := if is_digit c then 48%N else c.
Definition skeleton (s : str) : str := map skel s.

Definition decimal_digits : list char := [48; 49; 50; 51; 52; 53; 54; 55; 56; 57]%N.

(** A character class that cannot tell one digit from another. *)
Definition cset_blind (ic : bool) (p : cset) : bool :=
  forallb (fun d => Bool.eqb (cset_test ic p d) (cset_test ic p 48%N))
          decimal_digits.

Fixpoint regex_blind (ic : bool) (r : regex) : bool :=
  match r with
  | Sym p => cset_blind ic p
  | Rep p _ _ _ => cset_blind ic p
  | Cat r1 r2 | Alt r1 r2 => regex_blind ic r1 && regex_blind ic r2
  | Opt r1 | Grp _ r1 | NotAhead r1 => regex_blind ic r1
  | Eps | Bol | Eol | Wordb => true
  end.

Definition rule_blind (rl : rule) : bool :=
  regex_blind (rule_ic rl) (rule_pat rl).

(** The blocks whose pattern matches [s0], by position in the list, each
    with its match object. *)
Fixpoint hits (s0 : str) (rules : list rule) (i : nat) : list (nat * mobj) :=
  match rules with
  | [] => []
  | rl :: rest =>
    match run rl s0 with
    | Some m => (i, m) :: hits s0 rest (S i)
    | None => hits s0 rest (S i)
    end
  end.

Definition no_rule : rule := Rule Match false Eps (fun _ _ => Fall).

(** The bodies of the blocks that matched, run in order on [s]. *)
Fixpoint bodies (rules : list rule) (hs : list (nat * mobj)) (s : str)
  : outcome :=
  match hs with
  | [] => Fall
  | (i, m) :: rest =>
    match rule_body (nth i rules no_rule) s m with
    | Fall => bodies rules rest s
    | o => o
    end
  end.

(** Characters the Cyrillic map does not touch. *)
Definition plain (c : char) : bool :=
  negb (existsb (N.eqb c)
          [1061; 1093; 1030; 1110; 1042; 1057; 1052; 208; 1091]%N).

(** A code point of Unicode. *)
Definition valid (c : char) : bool := (c <? 1114112)%N.

(** A bound on what [int] reads from a text of at most 290 code points. *)
Definition BIG : Z := 2 ^ 1000.

Definition q_eqb (a b : Q) : bool :=
  (Qnum a =? Qnum b) && (Qden a =? Qden b)%positive.

Definition fl_eqb (a b : fl) : bool :=
  match a, b with
  | Fin x, Fin y => q_eqb x y
  | PInf, PInf | NInf, NInf => true
  | _, _ => false
  end.

Definition number_eqb (a b : number) : bool :=
  match a, b with
  | PyInt x, PyInt y => (x =? y)
  | PyFloat x, PyFloat y => fl_eqb x y
  | _, _ => false
  end.

(** Every bound the classifier compares a year with, in increasing order. *)
Definition thresholds : list Z :=
  [ -1400000; -10000; -4500; -1200; -700; -250; 0; 250; 370; 375; 600; 650;
    700; 839; 900; 1197; 1239; 1240; 1300; 1340; 1400; 1648; 1764; 1917;
    1921; 1991; 2030 ].

(** A number that compares with every threshold as [v] does: a threshold
    itself, the midpoint of two neighbours, or an infinity. *)
Fixpoint locate (v : number) (prev : option Z) (ts : list Z) : number :=
  match ts with
  | [] => PyFloat PInf
  | t :: ts' =>
    match cmp v t with
    | Lt =>
      match prev with
      | None => PyFloat NInf
      | Some p => PyFloat (Fin (Qmake (p + t) 2))
      end
    | Eq => PyInt t
    | Gt => locate v (Some t) ts'
    end
  end.

Fixpoint midpoints (prev : Z) (ts : list Z) : list number :=
  match ts with
  | [] => []
  | t :: ts' => PyFloat (Fin (Qmake (prev + t) 2)) :: midpoints t ts'
  end.

Definition representatives : list number :=
  (PyFloat NInf :: PyFloat PInf :: map PyInt thresholds
   ++ match thresholds with [] => [] | t :: ts => midpoints t ts end)%list.

Definition is_label (l : string) (ls : list string) : bool :=
  existsb (String.eqb l) ls.

Definition zeros (n : nat) : str := repeat 48%N n.

(** The dash-like characters. *)
Definition hyphen : char := 45%N.
Definition figure_dash : char := 8210%N.
Definition en_dash : char := 8211%N.
Definition em_dash : char := 8212%N.
Definition minus_sign : char := 8722%N.

(** Text that [strip] keeps as it is: no white space at either end. *)
Definition ends_solid (s : str) : bool :=
  match s, rev s with
  | a :: _, z :: _ => negb (is_space a) && negb (is_space z)
  | _, _ => false
  end.

(** A decade range whose first year has 309 digits: "400...0-1s". *)
Definition long_decade : str := (U "4" ++ zeros 308 ++ U "-1s")%list.

(** A block is safe when its body raises nothing on text of at most 290
    code points. *)
Definition safe (rl : rule) : Prop :=
  forall (s : str) (m : mobj) (e : exn),
    forallb valid s = true -> (length s <= 290)%nat ->
    rule_body rl s m <> Raise e.

(** The [k] integers from [z] on. *)
Fixpoint upto (k : nat) (z : Z) : list Z :=
  match k with
  | O => []
  | S k' => z :: upto k' (z + 1)
  end.

End Analysis.
Export Analysis.

(** ** Further definitions used by the proofs *)

Module Views.

Local Open Scope string_scope.
Local Open Scope Z_scope.

(** The label read off the bounds alone. *)
Definition period_by_bounds (v : number) : string :=
  if ltb v (-1400000) then "Pre-Neolithic Period"
  else if leb v (-10000) then "Paleolithic Period"
  else if leb v (-4500) then "Neolithic Period"
  else if leb v (-1200) then "Bronze Age"
  else if leb v (-700) then "Iron Age"
  else if leb v 0 then "Scythian-Sarmatian Era"
  else if leb v 375 then "Greek and Roman Period"
  else if ltb v 650 then "Migration Period"
  else if leb v 900 then "Early Medieval Period"
  else if ltb v 1239 then "Kievan Rus Period"
  else if ltb v 1300 then "Mongol Invasion and Domination"
  else if leb v 1340 then "Kingdom of Galicia-Volhynia"
  else if leb v 1400 then "Mongol Invasion and Domination"
  else if leb v 1648 then "Lithuanian and Polish Period"
  else if leb v 1764 then "Cossack Hetmanate Period"
  else if leb v 1917 then "Ukraine under the Russian Empire"
  else if leb v 1921 then "Ukraine's First Independence"
  else if leb v 1991 then "Soviet Period"
  else if leb v 2030 then "Independence Period"
  else "Contemporary Period".

(** The single letters of the Cyrillic map, each with its Latin twin. *)
Definition lookalikes : list (char * char) :=
  [ (1061, 88); (1093, 120); (1030, 73); (1110, 105); (1042, 66);
    (1057, 67); (1052, 77); (1091, 121) ]%N.

(** A Latin letter written as its Cyrillic look-alike. *)
Definition disguise (c : char) : char :=
  match find (fun p => (snd p =? c)%N) lookalikes with
  | Some p => fst p
  | None => c
  end.

(** A Cyrillic look-alike written as its Latin twin. *)
Definition unmask (c : char) : char :=
  match find (fun p => (fst p =? c)%N) lookalikes with
  | Some p => snd p
  | None => c
  end.

(** The words that qualify a century, with the shift each one causes. *)
Definition qualifiers : list (string * Z) :=
  [ ("end of", 38); ("ending of", 38); ("late", 38); ("second half of", 12);
    ("first half of", -38); ("beginning of", -38); ("start of", -38);
    ("early", -38); ("middle of", 0); ("mid", 0) ].

(** The year that [year_for_timeline] and [date] give, the column
    [date_normalized] left aside. *)
Definition early_year (r : row) : result (option number) :=
  year_of_row (Row (year_for_timeline r) (date r) None).

(** The patterns of the three places that read four-digit years. *)
Definition year_prefix_re : regex := cat [Bol; four_digits].
Definition year_text_re : regex := cat [Bol; rng CDigit 4 4; Eol].
Definition range_text_re : regex :=
  cat [Bol; rng CDigit 4 4; lit "-"; rng CDigit 4 4; Eol].

(** Equality of two results of the extractor, as a test. *)
Definition result_eqb (a b : result (option number)) : bool :=
  match a, b with
  | Ok (Some v), Ok (Some w) => number_eqb v w
  | Ok None, Ok None => true
  | Err OverflowError, Err OverflowError => true
  | _, _ => false
  end.

(** Equality of two outcomes of a block, as a test. *)
Definition outcome_eqb (a b : outcome) : bool :=
  match a, b with
  | Fall, Fall => true
  | Return v, Return w => number_eqb v w
  | Raise OverflowError, Raise OverflowError => true
  | _, _ => false
  end.

End Views.
Export Views.

(** ** Facts about text *)

Section TextFacts.

Lemma is_digit_cases (c : char) :
  is_digit c = true -> In c decimal_digits.
Proof.
  unfold is_digit, in_range. intros H.
  apply andb_true_iff in H. destruct H as [H1 H2].
  apply N.leb_le in H1. apply N.leb_le in H2.
  assert (Hc : (c = 48 \/ c = 49 \/ c = 50 \/ c = 51 \/ c = 52 \/ c = 53
                \/ c = 54 \/ c = 55 \/ c = 56 \/ c = 57)%N) by lia.
  simpl. intuition.
Qed.

(** A property of the ten digits holds of every digit. *)
Lemma digit_forall (P : char -> bool) (c : char) :
  forallb P decimal_digits = true -> is_digit c = true -> P c = true.
Proof.
  intros HP Hc. rewrite forallb_forall in HP. apply HP.
  now apply is_digit_cases.
Qed.

Lemma skel_digit (c : char) : is_digit c = true -> skel c = 48%N.
Proof. unfold skel. now intros ->. Qed.

Lemma skel_other (c : char) : is_digit c = false -> skel c = c.
Proof. unfold skel. now intros ->. Qed.

Lemma skel_word (c : char) : is_word (skel c) = is_word c.
Proof.
  destruct (is_digit c) eqn:E.
  - rewrite (skel_digit _ E).
    apply (digit_forall (fun d => Bool.eqb (is_word 48%N) (is_word d)) c) in E;
      [ now apply eqb_prop in E | reflexivity ].
  - now rewrite (skel_other _ E).
Qed.

Lemma skel_newline (c : char) : (skel c =? 10)%N = (c =? 10)%N.
Proof.
  destruct (is_digit c) eqn:E.
  - rewrite (skel_digit _ E).
    apply (digit_forall (fun d => Bool.eqb (48 =? 10)%N (d =? 10)%N) c) in E;
      [ now apply eqb_prop in E | reflexivity ].
  - now rewrite (skel_other _ E).
Qed.

Lemma skel_test (ic : bool) (p : cset) (c : char) :
  cset_blind ic p = true -> cset_test ic p (skel c) = cset_test ic p c.
Proof.
  intros Hb. destruct (is_digit c) eqn:E.
  - rewrite (skel_digit _ E).
    apply (digit_forall _ c Hb) in E. apply eqb_prop in E. now rewrite E.
  - now rewrite (skel_other _ E).
Qed.

End TextFacts.

(** ** The matcher sees digits only through their skeleton *)

Section Skeleton.

Variable ic : bool.

Lemma nth_error_skeleton (s : str) (i : nat) :
  nth_error (skeleton s) i = option_map skel (nth_error s i).
Proof. apply nth_error_map. Qed.

Lemma run_length_skeleton (p : cset) (s : str) :
  cset_blind ic p = true ->
  forall hi, run_length ic p hi (skeleton s) = run_length ic p hi s.
Proof.
  intros Hb. induction s as [|c s IH]; intros hi.
  - destruct hi as [[|k]|]; reflexivity.
  - destruct hi as [[|k]|]; simpl; trivial;
      rewrite (skel_test _ _ _ Hb); destruct (cset_test ic p c); trivial;
      f_equal; apply IH.
Qed.

Lemma word_at_skeleton (s : str) (i : nat) :
  word_at (skeleton s) i = word_at s i.
Proof.
  unfold word_at. rewrite nth_error_skeleton.
  destruct (nth_error s i); simpl; trivial. apply skel_word.
Qed.

Lemma at_boundary_skeleton (s : str) (i : nat) :
  at_boundary (skeleton s) i = at_boundary s i.
Proof.
  unfold at_boundary. rewrite word_at_skeleton.
  destruct i; trivial. now rewrite word_at_skeleton.
Qed.

Lemma at_end_skeleton (s : str) (i : nat) :
  at_end (skeleton s) i = at_end s i.
Proof.
  unfold at_end, skeleton. rewrite length_map.
  fold (skeleton s). rewrite nth_error_skeleton.
  destruct (nth_error s i); simpl; trivial. now rewrite skel_newline.
Qed.

Lemma rmatch_skeleton (s : str) (r : regex) :
  regex_blind ic r = true ->
  forall st, rmatch ic (skeleton s) r st = rmatch ic s r st.
Proof.
  induction r as [ | p | r1 IH1 r2 IH2 | r1 IH1 r2 IH2 | p lo hi g
                 | r1 IH1 | n r1 IH1 | | | | r1 IH1 ];
    simpl; intros Hb st; trivial.
  - rewrite nth_error_skeleton.
    destruct (nth_error s (fst st)); simpl; trivial.
    now rewrite (skel_test _ _ _ Hb).
  - apply andb_true_iff in Hb. destruct Hb as [Hb1 Hb2].
    rewrite (IH1 Hb1). apply flat_map_ext. intros a. now apply IH2.
  - apply andb_true_iff in Hb. destruct Hb as [Hb1 Hb2].
    now rewrite (IH1 Hb1), (IH2 Hb2).
  - unfold skeleton. rewrite skipn_map. fold (skeleton (skipn (fst st) s)).
    now rewrite (run_length_skeleton _ _ Hb).
  - now rewrite (IH1 Hb).
  - now rewrite (IH1 Hb).
  - now rewrite at_end_skeleton.
  - now rewrite at_boundary_skeleton.
  - now rewrite (IH1 Hb).
Qed.

Lemma re_match_skeleton (s : str) (r : regex) :
  regex_blind ic r = true -> re_match ic r (skeleton s) = re_match ic r s.
Proof. intros Hb. unfold re_match. now rewrite rmatch_skeleton. Qed.

Lemma search_from_skeleton (s : str) (r : regex) (starts : list nat) :
  regex_blind ic r = true ->
  search_from ic r (skeleton s) starts = search_from ic r s starts.
Proof.
  intros Hb. induction starts as [|i rest IH]; simpl; trivial.
  rewrite (rmatch_skeleton _ _ Hb). now rewrite IH.
Qed.

Lemma re_search_skeleton (s : str) (r : regex) :
  regex_blind ic r = true -> re_search ic r (skeleton s) = re_search ic r s.
Proof.
  intros Hb. unfold re_search.
  replace (length (skeleton s)) with (length s)
    by (unfold skeleton; now rewrite length_map).
  now apply search_from_skeleton.
Qed.

End Skeleton.

Lemma run_skeleton (rl : rule) (s : str) :
  rule_blind rl = true -> run rl (skeleton s) = run rl s.
Proof.
  unfold rule_blind, run. intros Hb. destruct (rule_mode rl).
  - now apply re_match_skeleton.
  - now apply re_search_skeleton.
Qed.

Lemma bodies_hits (all rules : list rule) (s0 s : str) (i : nat) :
  (forall j, nth (i + j) all no_rule = nth j rules no_rule) ->
  bodies all (hits s0 rules i) s =
  (fix go (rs : list rule) : outcome :=
     match rs with
     | [] => Fall
     | rl :: rest =>
       match (match run rl s0 with
              | Some m => rule_body rl s m
              | None => Fall
              end) with
       | Fall => go rest
       | o => o
       end
     end) rules.
Proof.
  revert i. induction rules as [|rl rest IH]; intros i Hn; simpl; trivial.
  assert (Hrest : forall j, nth (S i + j) all no_rule = nth j rest no_rule).
  { intros j. specialize (Hn (S j)). simpl in Hn.
    now rewrite Nat.add_succ_r in Hn. }
  destruct (run rl s0) as [m|]; simpl.
  - specialize (Hn O). rewrite Nat.add_0_r in Hn. simpl in Hn. rewrite Hn.
    destruct (rule_body rl s m); trivial. now apply IH.
  - now apply IH.
Qed.

(** Which blocks fire is decided by the digit skeleton alone. *)
Lemma cascade_by_skeleton (rules : list rule) (s : str) :
  forallb rule_blind rules = true ->
  cascade rules s = bodies rules (hits (skeleton s) rules 0) s.
Proof.
  intros Hb. rewrite (bodies_hits rules rules (skeleton s) s 0) by reflexivity.
  induction rules as [|rl rest IH]; simpl; trivial.
  simpl in Hb. apply andb_true_iff in Hb. destruct Hb as [Hb1 Hb2].
  unfold apply_rule. rewrite (run_skeleton _ _ Hb1).
  destruct (run rl s) as [m|].
  - destruct (rule_body rl s m); trivial. now apply IH.
  - now apply IH.
Qed.

Lemma rules_blind : forallb rule_blind rules = true.
Proof. vm_compute. reflexivity. Qed.

(** ** [strip], [replace] and the Cyrillic map *)

Section Cleaning.

Lemma lstrip_spaces (s : str) : forallb is_space s = true -> lstrip s = [].
Proof.
  induction s as [|c s IH]; simpl; trivial.
  intros H. apply andb_true_iff in H. destruct H as [Hc Hs].
  rewrite Hc. now apply IH.
Qed.

Lemma strip_spaces (s : str) : forallb is_space s = true -> strip s = [].
Proof. intros H. unfold strip. now rewrite (lstrip_spaces _ H). Qed.

Lemma lstrip_solid (s : str) :
  forallb (fun c => negb (is_space c)) s = true -> lstrip s = s.
Proof.
  destruct s as [|c s]; simpl; trivial.
  intros H. apply andb_true_iff in H. destruct H as [Hc _].
  apply negb_true_iff in Hc. now rewrite Hc.
Qed.

Lemma strip_solid (s : str) :
  forallb (fun c => negb (is_space c)) s = true -> strip s = s.
Proof.
  intros H. unfold strip. rewrite (lstrip_solid _ H).
  rewrite lstrip_solid; [ apply rev_involutive | ].
  rewrite forallb_forall in *. intros c Hc. apply H. now apply in_rev.
Qed.

Lemma lstrip_suffix (s : str) : exists p, s = p ++ lstrip s.
Proof.
  induction s as [|c s [p IH]]; simpl.
  - now exists [].
  - destruct (is_space c).
    + exists (c :: p). simpl. now f_equal.
    + now exists [].
Qed.

Lemma lstrip_length (s : str) : (length (lstrip s) <= length s)%nat.
Proof.
  destruct (lstrip_suffix s) as [p H]. rewrite H at 2.
  rewrite length_app. lia.
Qed.

Lemma lstrip_incl (s : str) (c : char) : In c (lstrip s) -> In c s.
Proof.
  destruct (lstrip_suffix s) as [p H]. rewrite H at 2.
  intros Hc. apply in_or_app. now right.
Qed.

Lemma strip_length (s : str) : (length (strip s) <= length s)%nat.
Proof.
  unfold strip. rewrite length_rev.
  etransitivity; [ apply lstrip_length | ].
  rewrite length_rev. apply lstrip_length.
Qed.

Lemma strip_incl (s : str) (c : char) : In c (strip s) -> In c s.
Proof.
  unfold strip. intros H. apply in_rev in H. apply lstrip_incl in H.
  apply in_rev in H. now apply lstrip_incl.
Qed.

Lemma replace_go_length (old new : str) (s : str) :
  (length new <= 1)%nat ->
  forall skip, (length (replace_go old new skip s) <= length s)%nat.
Proof.
  intros Hn. induction s as [|c s IH]; intros skip; simpl; trivial.
  destruct skip as [|k].
  - destruct (starts_with old (c :: s)).
    + rewrite length_app. specialize (IH (length old - 1)%nat). lia.
    + simpl. specialize (IH O). lia.
  - specialize (IH k). lia.
Qed.

Lemma replace_go_incl (old new : str) (s : str) (x : char) :
  forall skip, In x (replace_go old new skip s) -> In x new \/ In x s.
Proof.
  induction s as [|c s IH]; intros skip; simpl; [ tauto | ].
  destruct skip as [|k].
  - destruct (starts_with old (c :: s)).
    + intros H. apply in_app_or in H. destruct H as [H|H]; [ now left | ].
      apply IH in H. tauto.
    + simpl. intros [H|H]; [ tauto | ]. apply IH in H. tauto.
  - intros H. apply IH in H. tauto.
Qed.

Lemma replace_absent (o : char) (old new s : str) :
  forallb (fun c => negb (c =? o)%N) s = true ->
  replace (o :: old) new s = s.
Proof.
  unfold replace. induction s as [|c s IH]; simpl; trivial.
  intros H. apply andb_true_iff in H. destruct H as [Hc Hs].
  apply negb_true_iff in Hc. rewrite N.eqb_sym in Hc. rewrite Hc. simpl.
  f_equal. now apply IH.
Qed.

Lemma fold_replace_absent (table : list (string * string)) (s : str) :
  Forall (fun p => exists o old,
              U (fst p) = o :: old
              /\ forallb (fun c => negb (c =? o)%N) s = true) table ->
  fold_left (fun t p => replace (U (fst p)) (U (snd p)) t) table s = s.
Proof.
  induction 1 as [|p table (o & old & Ho & Hs) _ IH]; simpl; trivial.
  rewrite Ho, (replace_absent _ _ _ _ Hs). apply IH.
Qed.

Lemma plain_differs (o : char) (s : str) :
  In o [1061; 1093; 1030; 1110; 1042; 1057; 1052; 208; 1091]%N ->
  forallb plain s = true ->
  forallb (fun c => negb (c =? o)%N) s = true.
Proof.
  intros Ho H. rewrite forallb_forall in *. intros c Hc.
  specialize (H c Hc). unfold plain in H.
  apply negb_true_iff. apply negb_true_iff in H.
  destruct (c =? o)%N eqn:E; trivial.
  apply N.eqb_eq in E. subst o.
  rewrite <- H. symmetry. apply existsb_exists. exists c.
  split; [ exact Ho | apply N.eqb_refl ].
Qed.

(** Text without the mapped look-alikes passes through unchanged. *)
Lemma normalize_plain (s : str) :
  forallb plain s = true -> normalize_cyrillic_to_latin s = s.
Proof.
  intros H. unfold normalize_cyrillic_to_latin. destruct s as [|c s]; trivial.
  apply fold_replace_absent. unfold cyrillic_map.
  repeat (apply Forall_cons;
          [ eexists; eexists; split;
            [ vm_compute; reflexivity
            | apply plain_differs; [ simpl; tauto | exact H ] ] | ]).
  apply Forall_nil.
Qed.

Lemma normalize_length (s : str) :
  (length (normalize_cyrillic_to_latin s) <= length s)%nat.
Proof.
  unfold normalize_cyrillic_to_latin. destruct s as [|c s]; trivial.
  generalize (c :: s). intros t. unfold cyrillic_map. simpl fold_left.
  repeat (etransitivity;
          [ apply replace_go_length; vm_compute; lia | ]).
  reflexivity.
Qed.

Lemma normalize_valid (s : str) :
  forallb valid s = true ->
  forallb valid (normalize_cyrillic_to_latin s) = true.
Proof.
  unfold normalize_cyrillic_to_latin. destruct s as [|c s]; trivial.
  generalize (c :: s). intros t Ht. unfold cyrillic_map. simpl fold_left.
  assert (step : forall old new u,
             forallb valid (U new) = true -> forallb valid u = true ->
             forallb valid (replace (U old) (U new) u) = true).
  { intros old new u Hn Hu. rewrite forallb_forall in *. intros x Hx.
    apply replace_go_incl in Hx. destruct Hx; auto. }
  repeat (apply step; [ vm_compute; reflexivity | ]).
  exact Ht.
Qed.

Lemma strip_valid (s : str) :
  forallb valid s = true -> forallb valid (strip s) = true.
Proof.
  intros H. rewrite forallb_forall in *. intros c Hc.
  apply H. now apply strip_incl.
Qed.

End Cleaning.

(** ** Arithmetic *)

Section Arithmetic.

Local Open Scope Z_scope.

Lemma q_eqb_eq (a b : Q) : q_eqb a b = true -> a = b.
Proof.
  destruct a as [an ad], b as [bn bd]. unfold q_eqb. simpl.
  intros H. apply andb_true_iff in H. destruct H as [H1 H2].
  apply Z.eqb_eq in H1. apply Pos.eqb_eq in H2. now subst.
Qed.

Lemma fl_eqb_eq (a b : fl) : fl_eqb a b = true -> a = b.
Proof.
  destruct a, b; simpl; try discriminate; trivial.
  intros H. f_equal. now apply q_eqb_eq.
Qed.

Lemma q_exponent_le (n : Z) (d : positive) : q_exponent n d <= Z.log2 n.
Proof.
  unfold q_exponent. cbv zeta.
  pose proof (Z.log2_nonneg (Zpos d)).
  match goal with |- context [if ?b then _ else _] => destruct b end; lia.
Qed.

(** Below [2^1023] in magnitude nothing rounds to an infinity. *)
Lemma round_b64_finite (q : Q) :
  Z.abs (Qnum q) < 2 ^ 1023 -> exists r, round_b64 q = Fin r.
Proof.
  intros Hq. unfold round_b64. cbv zeta.
  destruct (Z.abs (Qnum q) =? 0) eqn:E0; [ eauto | ].
  apply Z.eqb_neq in E0.
  assert (Hlog : Z.log2 (Z.abs (Qnum q)) < 1023).
  { apply Z.log2_lt_pow2; lia. }
  pose proof (q_exponent_le (Z.abs (Qnum q)) (Qden q)) as He.
  set (e := Z.max (q_exponent (Z.abs (Qnum q)) (Qden q)) (-1022)) in *.
  assert (Hsh : e - 52 <= 970) by (unfold e; lia).
  assert (H1 : (971 <? e - 52) = false) by (apply Z.ltb_ge; lia).
  assert (H2 : (e - 52 =? 971) = false) by (apply Z.eqb_neq; lia).
  rewrite H1, H2. simpl. eauto.
Qed.

Lemma truediv_total (a : Z) (b : positive) :
  Z.abs a < 2 ^ 1023 -> exists r, truediv a b = Ok (Fin r).
Proof.
  intros Ha. unfold truediv.
  destruct (round_b64_finite (Qmake a b) Ha) as [r Hr].
  rewrite Hr. eauto.
Qed.

Lemma BIG_room : 8388608 * BIG = 2 ^ 1023.
Proof. vm_compute. reflexivity. Qed.

Lemma BIG_pos : 0 < BIG.
Proof. vm_compute. reflexivity. Qed.

Lemma ret_div_safe (a : Z) (b : positive) (negate : bool) (e : exn) :
  Z.abs a < 8388608 * BIG -> ret_div a b negate <> Raise e.
Proof.
  rewrite BIG_room. intros Ha. unfold ret_div.
  destruct (truediv_total a b Ha) as [r Hr]. rewrite Hr. discriminate.
Qed.

Lemma upto_In (k : nat) :
  forall z n, z <= n < z + Z.of_nat k -> In n (upto k z).
Proof.
  induction k as [|k IH]; intros z n Hn; [ lia | ].
  simpl. destruct (Z.eq_dec z n) as [->|Hne]; [ now left | right ].
  apply IH. lia.
Qed.

(** Halving a sum of two years of at most four digits is exact. *)
Lemma truediv_half_table :
  forallb (fun n => match truediv n 2 with
                    | Ok x => fl_eqb x (Fin (Qred (Qmake n 2)))
                    | Err _ => false
                    end) (upto (Z.to_nat 20000) 0) = true.
Proof. vm_compute. reflexivity. Qed.

Lemma truediv_half (n : Z) :
  0 <= n < 20000 -> truediv n 2 = Ok (Fin (Qred (Qmake n 2))).
Proof.
  intros Hn. pose proof truediv_half_table as T.
  rewrite forallb_forall in T. specialize (T n).
  assert (Hin : In n (upto (Z.to_nat 20000) 0)) by (apply upto_In; lia).
  specialize (T Hin). destruct (truediv n 2) as [x|]; [ | discriminate ].
  f_equal. now apply fl_eqb_eq.
Qed.

Lemma ret_div_half (n : Z) (negate : bool) :
  0 <= n < 20000 ->
  ret_div n 2 negate = Return (if negate then neg (half n) else half n).
Proof.
  intros Hn. unfold ret_div. rewrite (truediv_half n Hn).
  now destruct negate.
Qed.

Lemma py_int_digits_acc (d : str) :
  forallb is_digit d = true ->
  forall acc, 0 <= acc ->
  0 <= fold_left (fun a c => a * 10 + (Z.of_N c - 48)) d acc
    < (acc + 1) * 10 ^ Z.of_nat (length d).
Proof.
  induction d as [|c d IH]; intros Hd acc Hacc.
  - simpl. lia.
  - simpl in Hd. apply andb_true_iff in Hd. destruct Hd as [Hc Hd].
    apply is_digit_cases in Hc.
    assert (Hv : 0 <= Z.of_N c - 48 <= 9).
    { simpl in Hc. intuition (subst; simpl; lia). }
    replace (Z.of_nat (length (c :: d))) with (Z.of_nat (length d) + 1)
      by (simpl length; lia).
    rewrite Z.pow_add_r, Z.pow_1_r by lia.
    simpl fold_left.
    specialize (IH Hd (acc * 10 + (Z.of_N c - 48))).
    assert (Hp : 0 < 10 ^ Z.of_nat (length d)) by (apply Z.pow_pos_nonneg; lia).
    nia.
Qed.

(** [int] of [n] digits lies below [10^n]. *)
Lemma py_int_digits (d : str) :
  forallb is_digit d = true -> 0 <= py_int d < 10 ^ Z.of_nat (length d).
Proof.
  intros Hd. pose proof (py_int_digits_acc d Hd 0) as H.
  unfold py_int. lia.
Qed.

Lemma py_int_valid_acc (d : str) :
  forallb valid d = true ->
  forall acc A, 0 <= A -> Z.abs acc <= A ->
  Z.abs (fold_left (fun a c => a * 10 + (Z.of_N c - 48)) d acc)
    <= (A + 2097152) * 10 ^ Z.of_nat (length d).
Proof.
  induction d as [|c d IH]; intros Hd acc A HA Hacc.
  - simpl. lia.
  - simpl in Hd. apply andb_true_iff in Hd. destruct Hd as [Hc Hd].
    unfold valid in Hc. apply N.ltb_lt in Hc.
    replace (Z.of_nat (length (c :: d))) with (Z.of_nat (length d) + 1)
      by (simpl length; lia).
    rewrite Z.pow_add_r, Z.pow_1_r by lia.
    simpl fold_left.
    specialize (IH Hd (acc * 10 + (Z.of_N c - 48)) (10 * A + 2097152)).
    assert (Hp : 0 < 10 ^ Z.of_nat (length d)) by (apply Z.pow_pos_nonneg; lia).
    assert (H1 : Z.abs (acc * 10 + (Z.of_N c - 48)) <= 10 * A + 2097152) by lia.
    specialize (IH ltac:(lia) H1). nia.
Qed.

(** What [int] reads from at most 290 code points stays below [BIG]. *)
Lemma py_int_valid (d : str) :
  forallb valid d = true -> (length d <= 290)%nat -> Z.abs (py_int d) < BIG.
Proof.
  intros Hd Hl.
  pose proof (py_int_valid_acc d Hd 0 0 ltac:(lia) ltac:(simpl; lia)) as H.
  unfold py_int.
  assert (Hp : 10 ^ Z.of_nat (length d) <= 10 ^ 290)
    by (apply Z.pow_le_mono_r; lia).
  assert (Hb : 2097152 * 10 ^ 290 < BIG) by (vm_compute; reflexivity).
  lia.
Qed.

Lemma lookup_century (key : str) (y : Z) :
  lookup century_patterns key = Some y -> 50 <= y <= 1950.
Proof.
  unfold century_patterns. simpl.
  repeat match goal with
         | |- context [if ?b then _ else _] => destruct b
         end; intros H; inversion H; lia.
Qed.

End Arithmetic.

(** ** Comparing a year with the table's bounds *)

Section Comparison.

Local Open Scope Z_scope.

Lemma cmp_lt_mono (v : number) (t k : Z) :
  cmp v t = Lt -> t <= k -> cmp v k = Lt.
Proof.
  destruct v as [z|[q| |]]; simpl; trivial; try discriminate.
  - rewrite !Z.compare_lt_iff. lia.
  - unfold Qcompare. simpl. rewrite !Z.compare_lt_iff.
    pose proof (Pos2Z.is_pos (Qden q)). nia.
Qed.

Lemma cmp_gt_mono (v : number) (t k : Z) :
  cmp v t = Gt -> k <= t -> cmp v k = Gt.
Proof.
  destruct v as [z|[q| |]]; simpl; trivial; try discriminate.
  - rewrite !Z.compare_gt_iff. lia.
  - unfold Qcompare. simpl. rewrite !Z.compare_gt_iff.
    pose proof (Pos2Z.is_pos (Qden q)). nia.
Qed.

Lemma cmp_eq (v : number) (t k : Z) :
  cmp v t = Eq -> cmp v k = (t ?= k).
Proof.
  destruct v as [z|[q| |]]; simpl; try discriminate.
  - intros H. apply Z.compare_eq in H. now subst.
  - unfold Qcompare. simpl. intros H. apply Z.compare_eq in H.
    pose proof (Pos2Z.is_pos (Qden q)).
    destruct (Z.compare_spec t k);
      [ apply Z.compare_eq_iff | apply Z.compare_lt_iff
      | apply Z.compare_gt_iff ]; nia.
Qed.

Lemma sorted_app (l1 l2 : list Z) :
  StronglySorted Z.lt (l1 ++ l2) ->
  forall a b, In a l1 -> In b l2 -> a < b.
Proof.
  induction l1 as [|x l1 IH]; simpl; intros HS a b Ha Hb; [ tauto | ].
  inversion HS as [|? ? HS' Hall]; subst.
  destruct Ha as [->|Ha].
  - rewrite Forall_forall in Hall. apply Hall. apply in_or_app. now right.
  - now apply IH.
Qed.

Lemma sorted_tail (l1 : list Z) (t : Z) (l2 : list Z) :
  StronglySorted Z.lt (l1 ++ t :: l2) -> forall b, In b l2 -> t < b.
Proof.
  induction l1 as [|x l1 IH]; simpl; intros HS b Hb.
  - inversion HS as [|? ? _ Hall]; subst.
    rewrite Forall_forall in Hall. now apply Hall.
  - inversion HS; subst. now apply IH.
Qed.

(** [locate] answers every comparison as the year itself does. *)
Lemma locate_agrees (v : number) (ts : list Z) :
  forall (done : list Z) (prev : option Z),
  StronglySorted Z.lt (done ++ ts) ->
  (forall k, In k done -> cmp v k = Gt) ->
  match prev with
  | None => done = []
  | Some p => In p done /\ forall k, In k done -> k <= p
  end ->
  forall k, In k (done ++ ts) -> cmp (locate v prev ts) k = cmp v k.
Proof.
  induction ts as [|t ts IH]; intros done prev HS Hgt Hprev k Hk.
  - rewrite app_nil_r in Hk. simpl. now rewrite Hgt.
  - simpl. destruct (cmp v t) eqn:E.
    + simpl. symmetry. now apply cmp_eq.
    + assert (Hlate : In k (t :: ts) -> t <= k).
      { intros [->|Hin]; [ lia | ].
        pose proof (sorted_tail _ _ _ HS k Hin). lia. }
      destruct prev as [p|].
      * destruct Hprev as [Hp Hmax].
        assert (Hpt : p < t) by (apply (sorted_app _ _ HS); simpl; auto).
        apply in_app_or in Hk. destruct Hk as [Hk|Hk].
        -- rewrite (Hgt k Hk). specialize (Hmax k Hk).
           simpl. unfold Qcompare. simpl. apply Z.compare_gt_iff. lia.
        -- specialize (Hlate Hk). rewrite (cmp_lt_mono _ _ _ E Hlate).
           simpl. unfold Qcompare. simpl. apply Z.compare_lt_iff. lia.
      * subst done. simpl in Hk. specialize (Hlate Hk).
        now rewrite (cmp_lt_mono _ _ _ E Hlate).
    + apply (IH (done ++ [t]) (Some t)).
      * now rewrite <- app_assoc.
      * intros j Hj. apply in_app_or in Hj. destruct Hj as [Hj|[<-|[]]]; auto.
      * split; [ apply in_or_app; simpl; auto | ].
        intros j Hj. apply in_app_or in Hj. destruct Hj as [Hj|[<-|[]]].
        -- pose proof (sorted_app _ _ HS j t Hj ltac:(simpl; auto)). lia.
        -- lia.
      * rewrite <- app_assoc. exact Hk.
Qed.

Lemma locate_from (v : number) (ts : list Z) :
  forall p, In (locate v (Some p) ts)
               (PyFloat PInf :: map PyInt ts ++ midpoints p ts).
Proof.
  induction ts as [|t ts IH]; intros p; simpl; [ auto | ].
  destruct (cmp v t).
  - right. now left.
  - right. right. apply in_or_app. right. now left.
  - specialize (IH t). simpl in IH. destruct IH as [IH|IH]; [ now left | ].
    right. right. apply in_app_or in IH. apply in_or_app.
    destruct IH; [ now left | right; now right ].
Qed.

Lemma locate_first (v : number) (t : Z) (ts : list Z) :
  In (locate v None (t :: ts))
     (PyFloat NInf :: PyFloat PInf :: map PyInt (t :: ts) ++ midpoints t ts).
Proof.
  cbn [locate]. destruct (cmp v t).
  - right. right. now left.
  - now left.
  - pose proof (locate_from v ts t) as H.
    destruct H as [H|H]; [ right; now left | ].
    right. right. right. exact H.
Qed.

Lemma thresholds_sorted : StronglySorted Z.lt thresholds.
Proof.
  unfold thresholds.
  repeat (apply SSorted_cons; [ | repeat (apply Forall_cons; [ lia | ]);
                                  apply Forall_nil ]).
  apply SSorted_nil.
Qed.

(** Every year has a stand-in among finitely many numbers. *)
Lemma by_representative (v : number) :
  exists w, In w representatives
            /\ forall k, In k thresholds -> cmp v k = cmp w k.
Proof.
  exists (locate v None thresholds). split.
  - unfold representatives, thresholds. apply locate_first.
  - intros k Hk. symmetry.
    apply (locate_agrees v thresholds [] None); simpl; trivial.
    + apply thresholds_sorted.
    + tauto.
Qed.

Lemma on_representatives (chk : number -> bool) (w : number) :
  forallb chk representatives = true -> In w representatives -> chk w = true.
Proof. intros H. rewrite forallb_forall in H. apply H. Qed.

Lemma table_bounds :
  Forall (fun p => In (start p) thresholds /\ In (stop p) thresholds)
         HISTORICAL_PERIODS.
Proof.
  unfold HISTORICAL_PERIODS, thresholds.
  repeat (apply Forall_cons; [ split; simpl; tauto | ]). apply Forall_nil.
Qed.

(** The label depends on the year only through those comparisons. *)
Lemma period_of_year_ext (v w : number) :
  (forall k, In k thresholds -> cmp v k = cmp w k) ->
  period_of_year v = period_of_year w.
Proof.
  intros H.
  assert (Hm : matching v HISTORICAL_PERIODS = matching w HISTORICAL_PERIODS).
  { unfold matching. apply filter_ext_in. intros p Hp.
    pose proof table_bounds as T. rewrite Forall_forall in T.
    destruct (T p Hp) as [H1 H2].
    unfold geb, leb, ltb, gtb. now rewrite (H _ H1), (H _ H2). }
  assert (H1 : ltb v (-10000) = ltb w (-10000))
    by (unfold ltb; rewrite H; [ trivial | simpl; tauto ]).
  assert (H2 : gtb v 2030 = gtb w 2030)
    by (unfold gtb; rewrite H; [ trivial | simpl; tauto ]).
  assert (H3 : ltb v 1300 = ltb w 1300)
    by (unfold ltb; rewrite H; [ trivial | simpl; tauto ]).
  assert (H4 : gtb v 0 = gtb w 0)
    by (unfold gtb; rewrite H; [ trivial | simpl; tauto ]).
  assert (H5 : ltb v 650 = ltb w 650)
    by (unfold ltb; rewrite H; [ trivial | simpl; tauto ]).
  unfold period_of_year. now rewrite Hm, H1, H2, H3, H4, H5.
Qed.

End Comparison.

(** ** The classifier on an arbitrary year *)

Section Classifier.

Local Open Scope string_scope.
Local Open Scope Z_scope.

Lemma matching_ext (v w : number) :
  (forall k, In k thresholds -> cmp v k = cmp w k) ->
  matching v HISTORICAL_PERIODS = matching w HISTORICAL_PERIODS.
Proof.
  intros H. unfold matching. apply filter_ext_in. intros p Hp.
  pose proof table_bounds as T. rewrite Forall_forall in T.
  destruct (T p Hp) as [H1 H2].
  unfold geb, leb, ltb, gtb. now rewrite (H _ H1), (H _ H2).
Qed.

Lemma ltb_ext (v w : number) (k : Z) :
  (forall k, In k thresholds -> cmp v k = cmp w k) ->
  In k thresholds -> ltb v k = ltb w k.
Proof. intros H Hk. unfold ltb. now rewrite (H k Hk). Qed.

Lemma gtb_ext (v w : number) (k : Z) :
  (forall k, In k thresholds -> cmp v k = cmp w k) ->
  In k thresholds -> gtb v k = gtb w k.
Proof. intros H Hk. unfold gtb. now rewrite (H k Hk). Qed.

Lemma is_label_In (l : string) (ls : list string) :
  is_label l ls = true -> In l ls.
Proof.
  unfold is_label. intros H. apply existsb_exists in H.
  destruct H as (x & Hx & E). apply String.eqb_eq in E. now subst.
Qed.

(** Whatever the year, the label is one of the closed set. *)
Lemma period_of_year_closed (v : number) :
  In (period_of_year v) closed_labels.
Proof.
  destruct (by_representative v) as (w & Hin & Hw).
  rewrite (period_of_year_ext v w Hw). apply is_label_In.
  apply (on_representatives
           (fun w => is_label (period_of_year w) closed_labels));
    [ vm_compute; reflexivity | exact Hin ].
Qed.

Lemma label_of_year_closed (y : option number) :
  In (label_of_year y) closed_labels.
Proof.
  destruct y as [v|]; [ apply period_of_year_closed | ].
  apply is_label_In. vm_compute. reflexivity.
Qed.

(** A row with only a date: the label follows from the extracted year. *)
Lemma assign_date_row (d : option str) :
  assign_period_category (date_row d) =
  match extract_year_from_date d with
  | Ok y => Ok (label_of_year y)
  | Err e => Err e
  end.
Proof.
  unfold assign_period_category, year_of_row, date_row.
  cbn [year_for_timeline date date_normalized].
  destruct d as [s|]; [ | reflexivity ].
  destruct (extract_year_from_date (Some s)) as [[y|]|e]; reflexivity.
Qed.

End Classifier.

(** ** Claims about single inputs *)

Section Instances.

Local Open Scope string_scope.
Local Open Scope Z_scope.

(** C3.  Century notations resolve to the midpoint and quarter offsets:
    "XIX century" gives 1850, "first half of XIX century" gives 1812,
    "second half of XIX century" gives 1862 and "VI century BC" gives
    -550. *)
Theorem century_offsets :
  extract_year_from_date (Some (U "XIX century")) = Ok (Some (PyInt 1850))
  /\ extract_year_from_date (Some (U "first half of XIX century"))
     = Ok (Some (PyInt 1812))
  /\ extract_year_from_date (Some (U "second half of XIX century"))
     = Ok (Some (PyInt 1862))
  /\ extract_year_from_date (Some (U "VI century BC"))
     = Ok (Some (PyInt (-550))).
Proof. repeat split; vm_compute; reflexivity. Qed.

(** C1.  The code at the failing inputs: a Roman-numeral century from IX to
    XX followed by "century BC" comes out as the positive midpoint of the
    century of the same number CE, while I to VIII come out negative. *)
Theorem bc_century_sign_lost :
  map (fun e => extract_year_from_date
                  (Some (U (fst e ++ " century BC"))))
      (firstn 12 century_patterns)
  = map (fun e => Ok (Some (PyInt (snd e)))) (firstn 12 century_patterns)
  /\ map (fun e => extract_year_from_date
                     (Some (U (fst e ++ " century BC"))))
         (skipn 12 century_patterns)
     = map (fun e => Ok (Some (PyInt (- snd e)))) (skipn 12 century_patterns)
  /\ extract_year_from_date (Some (U "IX century BC")) = Ok (Some (PyInt 850)).
Proof. repeat split; vm_compute; reflexivity. Qed.

(** C4.  The code at the failing input: in "XXX centuries" the block for
    century ranges without a dash splits the numeral into "XX" and "X"
    and returns the midpoint of the 20th and the 10th century. *)
Theorem unsupported_numeral_split :
  let date_str := U "XXX centuries" in
  option_map (fun m => (group date_str m 1, group date_str m 2))
             (run century_space_range date_str)
  = Some (Some (U "XX"), Some (U "X"))
  /\ extract_year_from_date (Some date_str) = Ok (Some (float 1450)).
Proof. split; vm_compute; reflexivity. Qed.

(** C6.  At the year 1250 the candidates are 'Mongol Invasion and
    Domination' and 'Kingdom of Galicia-Volhynia', in table order, and the
    label is the former; for every year with both among its candidates the
    label is the former below 1300 and the latter from 1300 on. *)
Theorem overlap_mongol_galicia :
  map name (matching (PyInt 1250) HISTORICAL_PERIODS)
  = ["Mongol Invasion and Domination"; "Kingdom of Galicia-Volhynia"]
  /\ period_of_year (PyInt 1250) = "Mongol Invasion and Domination"
  /\ period_of_year (float 1250) = "Mongol Invasion and Domination"
  /\ forall v : number,
       if named "Mongol Invasion and Domination"
                (matching v HISTORICAL_PERIODS)
          && named "Kingdom of Galicia-Volhynia"
                   (matching v HISTORICAL_PERIODS)
       then period_of_year v
            = (if ltb v 1300 then "Mongol Invasion and Domination"
               else "Kingdom of Galicia-Volhynia")
       else True.
Proof.
  split; [ vm_compute; reflexivity | ].
  split; [ vm_compute; reflexivity | ].
  split; [ vm_compute; reflexivity | ].
  intros v. destruct (by_representative v) as (w & Hin & Hw).
  rewrite (period_of_year_ext v w Hw), (matching_ext v w Hw).
  rewrite (ltb_ext v w 1300 Hw) by (simpl; tauto).
  pose proof (on_representatives
    (fun w =>
       if named "Mongol Invasion and Domination"
                (matching w HISTORICAL_PERIODS)
          && named "Kingdom of Galicia-Volhynia"
                   (matching w HISTORICAL_PERIODS)
       then String.eqb (period_of_year w)
              (if ltb w 1300 then "Mongol Invasion and Domination"
               else "Kingdom of Galicia-Volhynia")
       else true) w ltac:(vm_compute; reflexivity) Hin) as H.
  cbv beta in H.
  destruct (named "Mongol Invasion and Domination"
                  (matching w HISTORICAL_PERIODS)
            && named "Kingdom of Galicia-Volhynia"
                     (matching w HISTORICAL_PERIODS)); trivial.
  now apply String.eqb_eq in H.
Qed.

(** C10.  The table leaves no gap between -1400000 and 2030: a year in
    that span has a candidate and gets a table label, a year below it gets
    'Pre-Neolithic Period', a year above it 'Contemporary Period'; so
    'Unknown Period' is the label exactly when no year was found. *)
Theorem table_has_no_gap :
  label_of_year None = "Unknown Period"
  /\ (forall v : number, label_of_year (Some v) <> "Unknown Period")
  /\ (forall v : number,
        if ltb v (-1400000)
        then label_of_year (Some v) = "Pre-Neolithic Period"
        else if gtb v 2030
        then label_of_year (Some v) = "Contemporary Period"
        else matching v HISTORICAL_PERIODS <> []
             /\ In (label_of_year (Some v)) (map label HISTORICAL_PERIODS))
  /\ (forall d : option str,
        match extract_year_from_date d with
        | Ok (Some v) =>
          assign_period_category (date_row d) = Ok (period_of_year v)
        | Ok None => assign_period_category (date_row d) = Ok "Unknown Period"
        | Err e => assign_period_category (date_row d) = Err e
        end).
Proof.
  split; [ reflexivity | ]. split; [ | split ].
  - intros v. unfold label_of_year.
    destruct (by_representative v) as (w & Hin & Hw).
    rewrite (period_of_year_ext v w Hw).
    pose proof (on_representatives
      (fun w => negb (String.eqb (period_of_year w) "Unknown Period"))
      w ltac:(vm_compute; reflexivity) Hin) as H.
    cbv beta in H. apply negb_true_iff in H. now apply String.eqb_neq in H.
  - intros v. unfold label_of_year.
    destruct (by_representative v) as (w & Hin & Hw).
    rewrite (period_of_year_ext v w Hw), (matching_ext v w Hw).
    rewrite (ltb_ext v w (-1400000) Hw) by (simpl; tauto).
    rewrite (gtb_ext v w 2030 Hw) by (simpl; tauto).
    pose proof (on_representatives
      (fun w =>
         if ltb w (-1400000)
         then String.eqb (period_of_year w) "Pre-Neolithic Period"
         else if gtb w 2030
         then String.eqb (period_of_year w) "Contemporary Period"
         else negb (Nat.eqb (length (matching w HISTORICAL_PERIODS)) 0)
              && is_label (period_of_year w) (map label HISTORICAL_PERIODS))
      w ltac:(vm_compute; reflexivity) Hin) as H.
    cbv beta in H.
    destruct (ltb w (-1400000)); [ now apply String.eqb_eq in H | ].
    destruct (gtb w 2030); [ now apply String.eqb_eq in H | ].
    apply andb_true_iff in H. destruct H as [H1 H2]. split.
    + destruct (matching w HISTORICAL_PERIODS); [ discriminate | discriminate ].
    + now apply is_label_In.
  - intros d. rewrite assign_date_row.
    destruct (extract_year_from_date d) as [[v|]|e]; reflexivity.
Qed.

End Instances.

(** ** Blank input *)

Section Blank.

Local Open Scope string_scope.

Lemma extract_text (c : char) (s : str) :
  extract_year_from_date (Some (c :: s)) =
  match cascade rules (normalize_cyrillic_to_latin (strip (c :: s))) with
  | Fall => Ok None
  | Return v => Ok (Some v)
  | Raise e => Err e
  end.
Proof. reflexivity. Qed.

Lemma cascade_empty : cascade rules [] = Fall.
Proof. vm_compute. reflexivity. Qed.

(** C8.  A missing, empty or white-space-only date gives no year and the
    label 'Unknown Period', also when [date_normalized] holds the empty
    string. *)
Theorem blank_is_unknown (d : option str) :
  match d with Some s => forallb is_space s = true | None => True end ->
  extract_year_from_date d = Ok None
  /\ assign_period_category (date_row d) = Ok "Unknown Period"
  /\ assign_period_category (Row None d (Some [])) = Ok "Unknown Period".
Proof.
  intros H.
  assert (E : extract_year_from_date d = Ok None).
  { destruct d as [[|c s]|]; trivial.
    rewrite extract_text, (strip_spaces _ H).
    change (normalize_cyrillic_to_latin []) with (@nil char).
    now rewrite cascade_empty. }
  split; [ exact E | ]. split.
  - now rewrite assign_date_row, E.
  - unfold assign_period_category, year_of_row.
    cbn [year_for_timeline date date_normalized].
    destruct d as [s|]; [ now rewrite E | reflexivity ].
Qed.

Lemma blank_is_unknown_witness :
  forallb is_space (U "   ") = true
  /\ extract_year_from_date (Some (U "   ")) = Ok None
  /\ assign_period_category (date_row (Some (U "   "))) = Ok "Unknown Period".
Proof.
  split; [ reflexivity | ].
  destruct (blank_is_unknown (Some (U "   ")) eq_refl) as (H1 & H2 & _).
  split; [ exact H1 | exact H2 ].
Defined.

End Blank.

(** ** No exception on text of ordinary length *)

Section Totality.

Local Open Scope Z_scope.

Lemma substr_length (s : str) (b e : nat) :
  (length (substr s b e) <= length s)%nat.
Proof.
  unfold substr. rewrite length_firstn, length_skipn. lia.
Qed.

Lemma substr_incl (s : str) (b e : nat) (c : char) :
  In c (substr s b e) -> In c s.
Proof.
  unfold substr. intros H.
  rewrite <- (firstn_skipn b s). apply in_or_app. right.
  rewrite <- (firstn_skipn (e - b) (skipn b s)). apply in_or_app. now left.
Qed.

Lemma grp_length (s : str) (m : mobj) (g : nat) :
  (length (grp s m g) <= length s)%nat.
Proof.
  unfold grp, group. destruct (span_of g m) as [[b e]|]; simpl;
    [ apply substr_length | lia ].
Qed.

Lemma grp_valid (s : str) (m : mobj) (g : nat) :
  forallb valid s = true -> forallb valid (grp s m g) = true.
Proof.
  intros H. unfold grp, group.
  destruct (span_of g m) as [[b e]|]; simpl; trivial.
  rewrite forallb_forall in *. intros c Hc. apply H.
  now apply substr_incl in Hc.
Qed.

Lemma py_int_grp (s : str) (m : mobj) (g : nat) :
  forallb valid s = true -> (length s <= 290)%nat ->
  Z.abs (py_int (grp s m g)) < BIG.
Proof.
  intros Hv Hl. apply py_int_valid; [ now apply grp_valid | ].
  pose proof (grp_length s m g). lia.
Qed.

Lemma truediv_total_big (a : Z) (b : positive) :
  Z.abs a < 8388608 * BIG -> exists r, truediv a b = Ok (Fin r).
Proof. rewrite BIG_room. apply truediv_total. Qed.

Ltac bounds s m Hv Hl :=
  pose proof BIG_pos;
  pose proof (py_int_grp s m 1 Hv Hl);
  pose proof (py_int_grp s m 2 Hv Hl);
  pose proof (py_int_grp s m 3 Hv Hl);
  pose proof (py_int_grp s m 4 Hv Hl);
  pose proof (py_int_grp s m 5 Hv Hl);
  lia.

Ltac solve_safe :=
  let s := fresh "s" in
  let m := fresh "m" in
  let e := fresh "e" in
  let Hv := fresh "Hv" in
  let Hl := fresh "Hl" in
  intros s m e Hv Hl;
  cbv [rule_body lone_roman_match single_roman_match year_only_range
       year_only end_range_match quarter_century_match wrong_format
       century_space_range early_th_match early_arabic_cent slash_range
       complex_slash or_alternative year_g ordinal_range beginning_ordinal
       half_ordinal thousand_range_match thousand_match
       millennium_single_match millennium_match decade_range_match
       decade_match part_of_century_match quarter_range_match century_bc
       century_ad range_match complex_match year_range_match year_match
       ret_int fst snd];
  repeat match goal with
         | |- context [lookup century_patterns ?k] =>
           let E := fresh "E" in
           destruct (lookup century_patterns k) eqn:E;
           [ apply lookup_century in E | ]
         | |- context [lookup millennium_map ?k] =>
           destruct (lookup millennium_map k)
         | |- context [if ?b then _ else _] => destruct b
         end;
  try discriminate;
  try (apply ret_div_safe; bounds s m Hv Hl);
  try (match goal with
       | |- context [truediv ?a ?b] =>
         let r := fresh "r" in
         let Hr := fresh "Hr" in
         destruct (truediv_total_big a b) as [r Hr];
         [ bounds s m Hv Hl | rewrite Hr; discriminate ]
       end).

Lemma rules_safe : Forall safe rules.
Proof.
  unfold rules. cbn [map app century_patterns].
  repeat (apply Forall_cons; [ solve_safe | ]).
  apply Forall_nil.
Qed.

Lemma cascade_safe (rs : list rule) (s : str) (e : exn) :
  Forall safe rs -> forallb valid s = true -> (length s <= 290)%nat ->
  cascade rs s <> Raise e.
Proof.
  induction 1 as [|rl rs Hrl _ IH]; intros Hv Hl; simpl; [ discriminate | ].
  unfold apply_rule. destruct (run rl s) as [m|].
  - destruct (rule_body rl s m) eqn:E; [ now apply IH | discriminate | ].
    exfalso. exact (Hrl s m e0 Hv Hl E).
  - now apply IH.
Qed.

End Totality.

Section TotalityClaim.

Local Open Scope string_scope.

(** C2, as the code has it.  On text of at most 290 code points the
    extractor returns a number or [None] and raises nothing, and the label
    computed from it is one of the table's labels, 'Unknown Period',
    'Pre-Neolithic Period' or 'Contemporary Period'; whatever the row, a
    label that is returned belongs to that set. *)
Theorem total_on_short_text (s : str) :
  forallb valid s = true -> (length s <= 290)%nat ->
  (exists y : option number,
      extract_year_from_date (Some s) = Ok y
      /\ assign_period_category (date_row (Some s)) = Ok (label_of_year y)
      /\ In (label_of_year y) closed_labels)
  /\ (forall r : row,
        match assign_period_category r with
        | Ok l => In l closed_labels
        | Err _ => True
        end).
Proof.
  intros Hv Hl. split.
  - assert (E : exists y, extract_year_from_date (Some s) = Ok y).
    { destruct s as [|c s]; [ now exists None | ].
      rewrite extract_text.
      set (t := normalize_cyrillic_to_latin (strip (c :: s))).
      assert (Ht : forallb valid t = true)
        by (apply normalize_valid, strip_valid, Hv).
      assert (Hn : (length t <= 290)%nat).
      { pose proof (normalize_length (strip (c :: s))).
        pose proof (strip_length (c :: s)). unfold t. lia. }
      destruct (cascade rules t) eqn:E; eauto.
      exfalso. exact (cascade_safe rules t e rules_safe Ht Hn E). }
    destruct E as [y E]. exists y. split; [ exact E | ]. split.
    + now rewrite assign_date_row, E.
    + apply label_of_year_closed.
  - intros r. unfold assign_period_category.
    destruct (year_of_row r) as [y|e]; trivial.
    apply label_of_year_closed.
Qed.

Lemma total_on_short_text_witness :
  forallb valid (U "1920s") = true
  /\ (length (U "1920s") <= 290)%nat
  /\ exists y : option number,
       extract_year_from_date (Some (U "1920s")) = Ok y
       /\ assign_period_category (date_row (Some (U "1920s")))
          = Ok (label_of_year y)
       /\ In (label_of_year y) closed_labels.
Proof.
  split; [ reflexivity | ]. split; [ vm_compute; lia | ].
  exact (proj1 (total_on_short_text (U "1920s") eq_refl
                  ltac:(vm_compute; lia))).
Defined.

(** C2 as stated fails: on a decade range whose first year has 309 digits
    the division overflows and the extractor raises. *)
Lemma long_decade_raises :
  extract_year_from_date (Some long_decade) = Err OverflowError
  /\ ~ (exists y, extract_year_from_date (Some long_decade) = Ok y).
Proof.
  assert (E : extract_year_from_date (Some long_decade) = Err OverflowError)
    by (vm_compute; reflexivity).
  split; [ exact E | ]. intros [y Hy]. rewrite E in Hy. discriminate.
Qed.

End TotalityClaim.

(** ** Bare years and year ranges *)

Section BareYears.

Local Open Scope Z_scope.

Lemma digit_not_space (c : char) : is_digit c = true -> is_space c = false.
Proof.
  intros H. apply negb_true_iff.
  exact (digit_forall (fun d => negb (is_space d)) c eq_refl H).
Qed.

Lemma digit_plain (c : char) : is_digit c = true -> plain c = true.
Proof. intros H. exact (digit_forall plain c eq_refl H). Qed.

Lemma strip_ends (s : str) : ends_solid s = true -> strip s = s.
Proof.
  unfold ends_solid, strip. destruct s as [|a s]; [ discriminate | ].
  destruct (rev (a :: s)) as [|z t] eqn:E; [ discriminate | ].
  intros H. apply andb_true_iff in H. destruct H as [Ha Hz].
  apply negb_true_iff in Ha. apply negb_true_iff in Hz.
  cbn [lstrip]. rewrite Ha, E. cbn [lstrip]. rewrite Hz.
  rewrite <- E. apply rev_involutive.
Qed.

(** On text that cleaning leaves alone, the result is that of the bodies
    of the blocks whose pattern matches the digit skeleton. *)
Lemma extract_by_skeleton (s s0 : str) (hs : list (nat * mobj)) :
  ends_solid s = true -> forallb plain s = true ->
  skeleton s = s0 -> hits s0 rules 0 = hs ->
  extract_year_from_date (Some s) =
  match bodies rules hs s with
  | Fall => Ok None
  | Return v => Ok (Some v)
  | Raise e => Err e
  end.
Proof.
  intros He Hp <- <-. destruct s as [|c s]; [ discriminate | ].
  rewrite extract_text, (strip_ends _ He), (normalize_plain _ Hp).
  now rewrite (cascade_by_skeleton rules _ rules_blind).
Qed.

Ltac digit_hyps H :=
  cbn [forallb] in H;
  repeat (let H1 := fresh "Hd" in
          apply andb_true_iff in H; destruct H as [H1 H]);
  clear H.

Ltac use_digits lem :=
  repeat match goal with
         | H : is_digit ?c = true |- _ => rewrite (lem c H)
         end.

Ltac by_skeleton :=
  erewrite extract_by_skeleton;
  [ | cbn [ends_solid rev app]; use_digits digit_not_space; reflexivity
    | cbn [forallb]; use_digits digit_plain; reflexivity
    | cbn [skeleton map]; use_digits skel_digit; reflexivity
    | vm_compute; reflexivity ];
  cbn [bodies nth rules app map century_patterns];
  cbv [rule_body year_only_range year_only slash_range year_match];
  cbn [grp group span_of option_map substr firstn skipn fst snd Nat.eqb
       Nat.sub].

Ltac split_digits d H L :=
  destruct d as [|? [|? [|? [|? [|]]]]]; simpl length in L; try lia;
  digit_hyps H.

Lemma pow10_bound (d : str) :
  (length d <= 4)%nat -> 10 ^ Z.of_nat (length d) <= 10000.
Proof.
  intros H. change 10000 with (10 ^ 4). apply Z.pow_le_mono_r; lia.
Qed.

(** A range of two years of one to four digits, joined by a hyphen or an
    en dash: the midpoint. *)
Lemma bare_range (d1 d2 : str) (sep : char) :
  forallb is_digit d1 = true -> forallb is_digit d2 = true ->
  (1 <= length d1 <= 4)%nat -> (1 <= length d2 <= 4)%nat ->
  In sep [45; 8211]%N ->
  extract_year_from_date (Some (d1 ++ sep :: d2))
  = Ok (Some (half (py_int d1 + py_int d2))).
Proof.
  intros H1 H2 L1 L2 Hsep.
  pose proof (py_int_digits d1 H1) as B1.
  pose proof (py_int_digits d2 H2) as B2.
  pose proof (pow10_bound d1 ltac:(lia)) as P1.
  pose proof (pow10_bound d2 ltac:(lia)) as P2.
  split_digits d1 H1 L1; split_digits d2 H2 L2;
    destruct Hsep as [<-|[<-|[]]]; cbn [app]; by_skeleton;
    cbn [says_bc]; rewrite ret_div_half by lia; reflexivity.
Qed.

(** The same range followed by " BC": the midpoint, negated. *)
Lemma bare_range_bc (d1 d2 : str) :
  forallb is_digit d1 = true -> forallb is_digit d2 = true ->
  (1 <= length d1 <= 4)%nat -> (1 <= length d2 <= 4)%nat ->
  extract_year_from_date (Some (d1 ++ 45%N :: d2 ++ U " BC"%string))
  = Ok (Some (neg (half (py_int d1 + py_int d2)))).
Proof.
  intros H1 H2 L1 L2.
  pose proof (py_int_digits d1 H1) as B1.
  pose proof (py_int_digits d2 H2) as B2.
  pose proof (pow10_bound d1 ltac:(lia)) as P1.
  pose proof (pow10_bound d2 ltac:(lia)) as P2.
  change (U " BC"%string) with [32; 66; 67]%N.
  split_digits d1 H1 L1; split_digits d2 H2 L2; cbn [app]; by_skeleton;
    change (says_bc (Some [66; 67]%N)) with true;
    rewrite ret_div_half by lia; reflexivity.
Qed.

(** Joined by a figure dash the range is read by the block for slashes,
    with the same result. *)
Lemma bare_range_figure_dash (d1 d2 : str) :
  forallb is_digit d1 = true -> forallb is_digit d2 = true ->
  (1 <= length d1 <= 4)%nat -> (1 <= length d2 <= 4)%nat ->
  extract_year_from_date (Some (d1 ++ 8210%N :: d2))
  = Ok (Some (half (py_int d1 + py_int d2))).
Proof.
  intros H1 H2 L1 L2.
  pose proof (py_int_digits d1 H1) as B1.
  pose proof (py_int_digits d2 H2) as B2.
  pose proof (pow10_bound d1 ltac:(lia)) as P1.
  pose proof (pow10_bound d2 ltac:(lia)) as P2.
  split_digits d1 H1 L1; split_digits d2 H2 L2; cbn [app]; by_skeleton;
    cbn [says_bc_cyr]; rewrite ret_div_half by lia; reflexivity.
Qed.

(** Joined by an em dash or a minus sign no block matches. *)
Lemma bare_range_other_dash (d1 d2 : str) (sep : char) :
  forallb is_digit d1 = true -> forallb is_digit d2 = true ->
  (1 <= length d1 <= 4)%nat -> (1 <= length d2 <= 4)%nat ->
  In sep [8212; 8722]%N ->
  extract_year_from_date (Some (d1 ++ sep :: d2)) = Ok None.
Proof.
  intros H1 H2 L1 L2 Hsep.
  split_digits d1 H1 L1; split_digits d2 H2 L2;
    destruct Hsep as [<-|[<-|[]]]; cbn [app]; by_skeleton; reflexivity.
Qed.

(** A bare year: up to three digits it is returned when below 500 and
    dropped otherwise; with four digits it is always returned. *)
Lemma bare_year (d : str) :
  forallb is_digit d = true -> (1 <= length d <= 4)%nat ->
  extract_year_from_date (Some d)
  = if (length d <=? 3)%nat
    then (if py_int d <? 500 then Ok (Some (PyInt (py_int d))) else Ok None)
    else Ok (Some (PyInt (py_int d))).
Proof.
  intros H L. split_digits d H L; cbn [length Nat.leb]; by_skeleton;
    cbn [says_bc];
    try match goal with
        | |- context [?a <? 500] => destruct (a <? 500)
        end; reflexivity.
Qed.

End BareYears.

(** ** Claims about bare years and ranges *)

Section BareYearClaims.

Local Open Scope Z_scope.

(** C5 as stated fails: the bare year "1900" is accepted without a suffix,
    and so is the bare range "584-602", whose midpoint is above 500. *)
Lemma bare_1900_accepted :
  extract_year_from_date (Some (U "1900")) = Ok (Some (PyInt 1900))
  /\ extract_year_from_date (Some (U "1900")) <> Ok None
  /\ extract_year_from_date (Some (U "584-602")) = Ok (Some (float 593)).
Proof.
  assert (E : extract_year_from_date (Some (U "1900")) = Ok (Some (PyInt 1900)))
    by (vm_compute; reflexivity).
  split; [ exact E | ]. split; [ rewrite E; discriminate | ].
  vm_compute. reflexivity.
Qed.

(** C5, as the code has it.  A bare year of one to three digits is
    returned unchanged when below 500 and gives no match from 500 on; a
    bare year of four digits is returned unchanged; a bare range of two
    years of one to four digits, joined by a hyphen or an en dash, gives
    its midpoint whatever the magnitude. *)
Theorem bare_year_magnitude (d1 d2 : str) (sep : char) :
  forallb is_digit d1 = true -> forallb is_digit d2 = true ->
  (1 <= length d1 <= 4)%nat -> (1 <= length d2 <= 4)%nat ->
  In sep [hyphen; en_dash] ->
  extract_year_from_date (Some d1)
  = (if (length d1 <=? 3)%nat
     then (if py_int d1 <? 500 then Ok (Some (PyInt (py_int d1)))
           else Ok None)
     else Ok (Some (PyInt (py_int d1))))
  /\ extract_year_from_date (Some (d1 ++ sep :: d2))
     = Ok (Some (half (py_int d1 + py_int d2))).
Proof.
  intros H1 H2 L1 L2 Hsep. split.
  - now apply bare_year.
  - now apply bare_range.
Qed.

Lemma bare_year_magnitude_witness :
  forallb is_digit (U "600") = true /\ forallb is_digit (U "81") = true
  /\ extract_year_from_date (Some (U "600")) = Ok None
  /\ extract_year_from_date (Some (U "600" ++ en_dash :: U "81"))
     = Ok (Some (PyFloat (Fin (681 # 2)))).
Proof.
  split; [ reflexivity | ]. split; [ reflexivity | ].
  exact (bare_year_magnitude (U "600") (U "81") en_dash eq_refl eq_refl
           ltac:(vm_compute; lia) ltac:(vm_compute; lia)
           ltac:(simpl; tauto)).
Defined.

(** X14.  A range of two years of one to four digits joined by a hyphen
    gives the midpoint (low + high) / 2, negated when the range is tagged
    BC; a single year of four digits is returned unchanged; "1840-1850"
    gives 1845. *)
Theorem range_midpoint (d1 d2 : str) :
  forallb is_digit d1 = true -> forallb is_digit d2 = true ->
  (1 <= length d1 <= 4)%nat -> (1 <= length d2 <= 4)%nat ->
  extract_year_from_date (Some (d1 ++ hyphen :: d2))
  = Ok (Some (half (py_int d1 + py_int d2)))
  /\ extract_year_from_date (Some (d1 ++ hyphen :: d2 ++ U " BC"))
     = Ok (Some (neg (half (py_int d1 + py_int d2))))
  /\ (if (length d1 =? 4)%nat
      then extract_year_from_date (Some d1) = Ok (Some (PyInt (py_int d1)))
      else True)
  /\ extract_year_from_date (Some (U "1840-1850")) = Ok (Some (float 1845)).
Proof.
  intros H1 H2 L1 L2. split; [ | split; [ | split ] ].
  - apply bare_range; simpl; auto.
  - now apply bare_range_bc.
  - destruct (length d1 =? 4)%nat eqn:E; trivial.
    apply Nat.eqb_eq in E. rewrite (bare_year d1 H1 L1), E. reflexivity.
  - vm_compute. reflexivity.
Qed.

Lemma range_midpoint_witness :
  forallb is_digit (U "138") = true /\ forallb is_digit (U "161") = true
  /\ extract_year_from_date (Some (U "138-161"))
     = Ok (Some (PyFloat (Fin (299 # 2))))
  /\ extract_year_from_date (Some (U "138-161 BC"))
     = Ok (Some (PyFloat (Fin (-299 # 2)))).
Proof.
  split; [ reflexivity | ]. split; [ reflexivity | ].
  destruct (range_midpoint (U "138") (U "161") eq_refl eq_refl
              ltac:(vm_compute; lia) ltac:(vm_compute; lia))
    as (Ha & Hb & _).
  split; [ exact Ha | exact Hb ].
Defined.

(** C9 as stated fails: the cleaning step leaves an em dash in place, and
    "1840—1850" gives no year while "1840-1850" gives 1845. *)
Lemma em_dash_range_unmatched :
  normalize_cyrillic_to_latin (U "1840—1850") = U "1840—1850"
  /\ extract_year_from_date (Some (U "1840—1850")) = Ok None
  /\ extract_year_from_date (Some (U "1840-1850")) = Ok (Some (float 1845))
  /\ extract_year_from_date (Some (U "1840—1850"))
     <> extract_year_from_date (Some (U "1840-1850")).
Proof.
  assert (E1 : extract_year_from_date (Some (U "1840—1850")) = Ok None)
    by (vm_compute; reflexivity).
  assert (E2 : extract_year_from_date (Some (U "1840-1850"))
               = Ok (Some (float 1845))) by (vm_compute; reflexivity).
  split; [ vm_compute; reflexivity | ]. split; [ exact E1 | ].
  split; [ exact E2 | ]. rewrite E1, E2. discriminate.
Qed.

Lemma digits_plain (d : str) :
  forallb is_digit d = true -> forallb plain d = true.
Proof.
  intros H. rewrite forallb_forall in *. intros c Hc.
  apply digit_plain. now apply H.
Qed.

(** C9, as the code has it.  The cleaning step leaves every dash as it is;
    the patterns for bare ranges accept a hyphen or an en dash, and the
    pattern for slashes also a figure dash, so a range of two years of one
    to four digits gives the same year with any of the three, and no year
    with an em dash or a minus sign. *)
Theorem dash_variants (d1 d2 : str) :
  forallb is_digit d1 = true -> forallb is_digit d2 = true ->
  (1 <= length d1 <= 4)%nat -> (1 <= length d2 <= 4)%nat ->
  (forall sep,
      In sep [hyphen; figure_dash; en_dash; em_dash; minus_sign] ->
      normalize_cyrillic_to_latin (d1 ++ sep :: d2) = d1 ++ sep :: d2)
  /\ extract_year_from_date (Some (d1 ++ en_dash :: d2))
     = extract_year_from_date (Some (d1 ++ hyphen :: d2))
  /\ extract_year_from_date (Some (d1 ++ figure_dash :: d2))
     = extract_year_from_date (Some (d1 ++ hyphen :: d2))
  /\ extract_year_from_date (Some (d1 ++ em_dash :: d2)) = Ok None
  /\ extract_year_from_date (Some (d1 ++ minus_sign :: d2)) = Ok None.
Proof.
  intros H1 H2 L1 L2. split; [ | split; [ | split; [ | split ] ] ].
  - intros sep Hsep. apply normalize_plain.
    rewrite forallb_app. rewrite (digits_plain _ H1). cbn [forallb andb].
    rewrite (digits_plain _ H2).
    simpl in Hsep.
    destruct Hsep as [<-|[<-|[<-|[<-|[<-|[]]]]]]; reflexivity.
  - rewrite !bare_range; simpl; auto.
  - rewrite bare_range_figure_dash, bare_range; simpl; auto.
  - apply bare_range_other_dash; simpl; auto.
  - apply bare_range_other_dash; simpl; auto.
Qed.

Lemma dash_variants_witness :
  forallb is_digit (U "1840") = true /\ forallb is_digit (U "1850") = true
  /\ extract_year_from_date (Some (U "1840–1850"))
     = extract_year_from_date (Some (U "1840-1850"))
  /\ extract_year_from_date (Some (U "1840−1850")) = Ok None.
Proof.
  split; [ reflexivity | ]. split; [ reflexivity | ].
  destruct (dash_variants (U "1840") (U "1850") eq_refl eq_refl
              ltac:(vm_compute; lia) ltac:(vm_compute; lia))
    as (_ & Ha & _ & _ & Hb).
  split; [ exact Ha | exact Hb ].
Defined.

End BareYearClaims.

(** ** Further properties of the classifier *)

Section ClassifierProperties.

Local Open Scope string_scope.
Local Open Scope Z_scope.

Lemma leb_ext (v w : number) (k : Z) :
  (forall k, In k thresholds -> cmp v k = cmp w k) ->
  In k thresholds -> leb v k = leb w k.
Proof. intros H Hk. unfold leb. now rewrite (gtb_ext v w k H Hk). Qed.

(** X1.  The label as a function of the year.  Below -1400000 it is
    'Pre-Neolithic Period' and above 2030 'Contemporary Period'; in between
    each period holds from just above the end of the one before to its own
    end, except that Scythian-Sarmatian gives way to Greek and Roman above
    0, Migration to Early Medieval from 650, Kievan Rus to Mongol from
    1239, Mongol to Galicia-Volhynia from 1300 to 1340, after which the
    label is Mongol again until 1400. *)
Theorem label_by_bounds (v : number) :
  period_of_year v = period_by_bounds v.
Proof.
  destruct (by_representative v) as (w & Hin & Hw).
  rewrite (period_of_year_ext v w Hw). unfold period_by_bounds.
  rewrite !(ltb_ext v w _ Hw) by (simpl; tauto).
  rewrite !(leb_ext v w _ Hw) by (simpl; tauto).
  fold (period_by_bounds w). apply String.eqb_eq.
  apply (on_representatives
           (fun w => String.eqb (period_of_year w) (period_by_bounds w)));
    [ vm_compute; reflexivity | exact Hin ].
Qed.

End ClassifierProperties.

(** ** Further properties of the cleaning steps *)

Section CleaningProperties.

Lemma replace_single (o n : char) (s : str) :
  replace [o] [n] s = map (fun c => if (c =? o)%N then n else c) s.
Proof.
  unfold replace. induction s as [|c s IH]; simpl; trivial.
  rewrite andb_true_r, N.eqb_sym. destruct (c =? o)%N; simpl; now rewrite IH.
Qed.

Lemma replace_removes (o n : char) (s : str) :
  o <> n -> ~ In o (replace [o] [n] s).
Proof.
  intros Hne. rewrite replace_single. intros H. apply in_map_iff in H.
  destruct H as (c & Hc & _). destruct (N.eqb_spec c o); congruence.
Qed.

Lemma replace_keeps_out (x : char) (old new s : str) :
  ~ In x new -> ~ In x s -> ~ In x (replace old new s).
Proof.
  intros Hn Hs H. apply replace_go_incl in H. tauto.
Qed.

Lemma normalize_unfold (c : char) (s : str) :
  normalize_cyrillic_to_latin (c :: s) =
  replace [1091%N] [121%N]
    (replace [208; 8224]%N [73%N]
       (replace [208; 165]%N [88%N]
          (replace [1052%N] [77%N]
             (replace [1057%N] [67%N]
                (replace [1042%N] [66%N]
                   (replace [1110%N] [105%N]
                      (replace [1030%N] [73%N]
                         (replace [1093%N] [120%N]
                            (replace [1061%N] [88%N] (c :: s)))))))))).
Proof. reflexivity. Qed.

(** X2.  After the cleaning step none of the eight mapped Cyrillic letters
    is left in the text, whatever the input. *)
Theorem no_lookalike_left (s : str) (c : char) :
  In c (map fst lookalikes) -> ~ In c (normalize_cyrillic_to_latin s).
Proof.
  intros Hc. destruct s as [|a s]; [ simpl; tauto | ].
  rewrite normalize_unfold. simpl in Hc.
  destruct Hc as [<-|[<-|[<-|[<-|[<-|[<-|[<-|[<-|[]]]]]]]]];
    repeat first
      [ apply replace_removes; discriminate
      | apply replace_keeps_out; [ simpl; intuition discriminate | ] ].
Qed.

Lemma no_lookalike_left_witness :
  In 1061%N (map fst lookalikes)
  /\ ~ In 1061%N (normalize_cyrillic_to_latin (U "ХVІІІ")).
Proof.
  split; [ simpl; tauto | ].
  apply no_lookalike_left. simpl. tauto.
Defined.

Lemma lstrip_map (f : char -> char) (s : str) :
  (forall c, is_space (f c) = is_space c) ->
  lstrip (map f s) = map f (lstrip s).
Proof.
  intros Hf. induction s as [|c s IH]; simpl; trivial.
  rewrite Hf. destruct (is_space c); trivial.
Qed.

Lemma strip_map (f : char -> char) (s : str) :
  (forall c, is_space (f c) = is_space c) ->
  strip (map f s) = map f (strip s).
Proof.
  intros Hf. unfold strip.
  now rewrite (lstrip_map f _ Hf), <- map_rev, (lstrip_map f _ Hf), map_rev.
Qed.

Ltac char_cases c :=
  repeat match goal with
         | |- context [(c =? ?k)%N] =>
           destruct (N.eqb_spec c k); [ subst c | ]
         | H : context [(c =? ?k)%N] |- _ =>
           destruct (N.eqb_spec c k); [ subst c | ]
         end.

Lemma disguise_space (c : char) : is_space (disguise c) = is_space c.
Proof.
  unfold disguise, lookalikes. cbn [find fst snd].
  do 8 (match goal with
        | |- context [(?k =? c)%N] =>
          destruct (N.eqb_spec k c); [ subst c; reflexivity | ]
        end).
  reflexivity.
Qed.

Lemma unmask_disguise (c : char) : plain c = true -> unmask (disguise c) = c.
Proof.
  intros Hp. unfold disguise, lookalikes. cbn [find fst snd].
  do 8 (match goal with
        | |- context [(?k =? c)%N] =>
          destruct (N.eqb_spec k c); [ subst c; reflexivity | ]
        end).
  unfold plain in Hp. cbn [existsb] in Hp.
  unfold unmask, lookalikes. cbn [find fst snd].
  do 8 (match goal with
        | |- context [(?k =? c)%N] =>
          destruct (N.eqb_spec k c);
          [ subst c; rewrite ?N.eqb_refl in Hp; simpl in Hp; discriminate | ]
        end).
  reflexivity.
Qed.

Lemma disguise_not_208 (c : char) :
  plain c = true -> negb (disguise c =? 208)%N = true.
Proof.
  intros Hp. unfold disguise, lookalikes. cbn [find fst snd].
  do 8 (match goal with
        | |- context [(?k =? c)%N] =>
          destruct (N.eqb_spec k c); [ subst c; reflexivity | ]
        end).
  unfold plain in Hp. cbn [existsb] in Hp.
  destruct (N.eqb_spec c 208); [ subst c; discriminate | reflexivity ].
Qed.

(** Without the letter U+00D0 the cleaning step is the letter-by-letter
    map of look-alikes to their Latin twins. *)
Lemma normalize_unmask (s : str) :
  forallb (fun c => negb (c =? 208)%N) s = true ->
  normalize_cyrillic_to_latin s = map unmask s.
Proof.
  intros H. destruct s as [|a s]; trivial.
  rewrite normalize_unfold. generalize dependent (a :: s). clear a s.
  intros s H. rewrite !replace_single, !map_map.
  match goal with |- context [map ?f s] => set (g := f) end.
  assert (Hg : forall c, negb (c =? 208)%N = true ->
                         negb (g c =? 208)%N = true /\
                         (if (g c =? 1091)%N then 121%N else g c) = unmask c).
  { intros c Hc. unfold g, unmask, lookalikes. cbn [find fst snd].
    destruct (N.eqb_spec c 208) as [|H208]; [ discriminate | ].
    do 7 (match goal with
          | |- context [(c =? ?k)%N] =>
            destruct (N.eqb_spec c k); [ subst c; split; reflexivity | ]
          end).
    rewrite !(proj2 (N.eqb_neq _ _)) by congruence.
    destruct (N.eqb_spec c 1091); [ subst c; split; reflexivity | ].
    repeat match goal with
           | |- context [(?k =? c)%N] =>
             rewrite (proj2 (N.eqb_neq k c)) by congruence
           end.
    split; reflexivity. }
  assert (H208 : forallb (fun c => negb (c =? 208)%N) (map g s) = true).
  { rewrite forallb_forall in *. intros x Hx. apply in_map_iff in Hx.
    destruct Hx as (c & <- & Hc). apply (Hg c). now apply H. }
  rewrite (replace_absent 208%N _ _ _ H208), (replace_absent 208%N _ _ _ H208).
  rewrite map_map. apply map_ext_in.
  intros c Hc. rewrite forallb_forall in H. apply (Hg c). now apply H.
Qed.

Lemma extract_any (s : str) :
  extract_year_from_date (Some s) =
  match cascade rules (normalize_cyrillic_to_latin (strip s)) with
  | Fall => Ok None
  | Return v => Ok (Some v)
  | Raise e => Err e
  end.
Proof.
  destruct s as [|c s]; [ | apply extract_text ].
  change (normalize_cyrillic_to_latin (strip [])) with (@nil char).
  now rewrite cascade_empty.
Qed.

Lemma strip_plain (s : str) :
  forallb plain s = true -> forallb plain (strip s) = true.
Proof.
  intros H. rewrite forallb_forall in *. intros c Hc.
  apply H. now apply strip_incl.
Qed.

(** X3.  Text in which Latin X, I, B, C, M, x, i, y are written as their
    Cyrillic look-alikes gives the same result as the Latin text. *)
Theorem lookalikes_read_as_latin (s : str) :
  forallb plain s = true ->
  extract_year_from_date (Some (map disguise s))
  = extract_year_from_date (Some s).
Proof.
  intros Hp. rewrite !extract_any.
  rewrite (strip_map disguise s disguise_space).
  pose proof (strip_plain s Hp) as Hs.
  rewrite (normalize_plain _ Hs).
  rewrite normalize_unmask.
  - rewrite map_map.
    replace (map (fun x => unmask (disguise x)) (strip s)) with (strip s);
      trivial.
    rewrite <- (map_id (strip s)) at 1. apply map_ext_in.
    intros c Hc. symmetry. apply unmask_disguise.
    rewrite forallb_forall in Hs. now apply Hs.
  - rewrite forallb_forall in *. intros x Hx. apply in_map_iff in Hx.
    destruct Hx as (c & <- & Hc). apply disguise_not_208. now apply Hs.
Qed.

Lemma lookalikes_read_as_latin_witness :
  forallb plain (U "XVIII century") = true
  /\ map disguise (U "XVIII century") = U "ХVІІІ centurу"
  /\ extract_year_from_date (Some (U "ХVІІІ centurу"))
     = Ok (Some (PyInt 1750)).
Proof.
  split; [ reflexivity | ]. split; [ reflexivity | ].
  exact (eq_trans (lookalikes_read_as_latin (U "XVIII century") eq_refl)
                  eq_refl).
Defined.

Lemma lstrip_app_spaces (p t : str) :
  forallb is_space p = true -> lstrip (p ++ t) = lstrip t.
Proof.
  induction p as [|c p IH]; simpl; trivial.
  intros H. apply andb_true_iff in H. destruct H as [Hc Hp].
  rewrite Hc. now apply IH.
Qed.

Lemma lstrip_app_kept (s t : str) :
  lstrip s <> [] -> lstrip (s ++ t) = lstrip s ++ t.
Proof.
  induction s as [|c s IH]; simpl; [ congruence | ].
  destruct (is_space c); trivial.
Qed.

Lemma forallb_rev (f : char -> bool) (s : str) :
  forallb f s = true -> forallb f (rev s) = true.
Proof.
  intros H. rewrite forallb_forall in *. intros c Hc.
  apply H. now apply in_rev.
Qed.

Lemma strip_padding (pre s post : str) :
  forallb is_space pre = true -> forallb is_space post = true ->
  strip (pre ++ s ++ post) = strip s.
Proof.
  intros Hpre Hpost. unfold strip. rewrite (lstrip_app_spaces _ _ Hpre).
  destruct (lstrip s) as [|c t] eqn:E.
  - assert (Hs : forallb is_space s = true).
    { clear - E. induction s as [|a s IH]; simpl; trivial.
      simpl in E. destruct (is_space a); [ now apply IH | discriminate ]. }
    rewrite (lstrip_spaces (s ++ post))
      by (rewrite forallb_app; now rewrite Hs, Hpost).
    reflexivity.
  - rewrite lstrip_app_kept by congruence. rewrite E.
    rewrite rev_app_distr.
    now rewrite (lstrip_app_spaces _ _ (forallb_rev _ _ Hpost)).
Qed.

(** X4.  White space before and after the text never changes the
    result. *)
Theorem padding_ignored (pre s post : str) :
  forallb is_space pre = true -> forallb is_space post = true ->
  extract_year_from_date (Some (pre ++ s ++ post))
  = extract_year_from_date (Some s).
Proof.
  intros Hpre Hpost. rewrite !extract_any.
  now rewrite (strip_padding _ _ _ Hpre Hpost).
Qed.

Lemma padding_ignored_witness :
  forallb is_space (U "  ") = true /\ forallb is_space [9%N; 160%N] = true
  /\ extract_year_from_date (Some (U "  " ++ U "1920s" ++ [9%N; 160%N]))
     = Ok (Some (PyInt 1925)).
Proof.
  split; [ reflexivity | ]. split; [ reflexivity | ].
  exact (eq_trans (padding_ignored (U "  ") (U "1920s") [9%N; 160%N]
                     eq_refl eq_refl) eq_refl).
Defined.

End CleaningProperties.

(** ** Decades, tagged years and years before the present *)

Section DigitNotations.

Local Open Scope Z_scope.

Ltac digit_hyps H :=
  cbn [forallb] in H;
  repeat (let H1 := fresh "Hd" in
          apply andb_true_iff in H; destruct H as [H1 H]);
  clear H.

Ltac use_digits lem :=
  repeat match goal with
         | H : is_digit ?c = true |- _ => rewrite (lem c H)
         end.

Ltac split_digits d H L :=
  destruct d as [|? [|? [|? [|? [|]]]]]; simpl length in L; try lia;
  digit_hyps H.

Ltac fire :=
  erewrite extract_by_skeleton;
  [ | cbn [ends_solid rev app]; use_digits digit_not_space; reflexivity
    | cbn [forallb]; use_digits digit_plain; reflexivity
    | cbn [skeleton map]; use_digits skel_digit; reflexivity
    | vm_compute; reflexivity ];
  cbn [bodies nth rules app map century_patterns];
  cbv [rule_body year_only decade_match thousand_range_match thousand_match
       ret_int];
  cbn [grp group span_of option_map substr firstn skipn fst snd Nat.eqb
       Nat.sub].

(** X5.  A decade written as up to four digits and "s" gives the fifth
    year of the decade, negated when " BC" follows. *)
Theorem decade_fifth_year (d : str) :
  forallb is_digit d = true -> (1 <= length d <= 4)%nat ->
  extract_year_from_date (Some (d ++ U "s"))
  = Ok (Some (PyInt (py_int d + 5)))
  /\ extract_year_from_date (Some (d ++ U "s BC"))
     = Ok (Some (PyInt (- (py_int d + 5)))).
Proof.
  intros H L.
  change (U "s") with [115%N]. change (U "s BC") with [115; 32; 66; 67]%N.
  split; split_digits d H L; cbn [app]; fire; reflexivity.
Qed.

Lemma decade_fifth_year_witness :
  forallb is_digit (U "580") = true
  /\ extract_year_from_date (Some (U "580s")) = Ok (Some (PyInt 585))
  /\ extract_year_from_date (Some (U "580s BC")) = Ok (Some (PyInt (-585))).
Proof.
  split; [ reflexivity | ].
  exact (decade_fifth_year (U "580") eq_refl ltac:(vm_compute; lia)).
Defined.

(** X6.  A year of one to three digits tagged " BC" is returned negated
    whatever its size; tagged " AD" it is returned only when below 500; a
    year of four digits with either tag gives no match. *)
Theorem tagged_year (d : str) :
  forallb is_digit d = true -> (1 <= length d <= 4)%nat ->
  extract_year_from_date (Some (d ++ U " BC"))
  = (if (length d <=? 3)%nat then Ok (Some (PyInt (- py_int d)))
     else Ok None)
  /\ extract_year_from_date (Some (d ++ U " AD"))
     = (if (length d <=? 3)%nat
        then (if py_int d <? 500 then Ok (Some (PyInt (py_int d)))
              else Ok None)
        else Ok None).
Proof.
  intros H L.
  change (U " BC") with [32; 66; 67]%N. change (U " AD") with [32; 65; 68]%N.
  split; split_digits d H L; cbn [app length Nat.leb]; fire;
    try change (says_bc (Some [66; 67]%N)) with true;
    try change (says_bc (Some [65; 68]%N)) with false;
    cbv iota;
    try match goal with
        | |- context [?a <? 500] => destruct (a <? 500)
        end; reflexivity.
Qed.

Lemma tagged_year_witness :
  forallb is_digit (U "600") = true
  /\ extract_year_from_date (Some (U "600 BC")) = Ok (Some (PyInt (-600)))
  /\ extract_year_from_date (Some (U "600 AD")) = Ok None.
Proof.
  split; [ reflexivity | ].
  exact (tagged_year (U "600") eq_refl ltac:(vm_compute; lia)).
Defined.

Lemma fmul_half_table :
  forallb (fun n => fl_eqb (fmul (Fin (Qred (Qmake n 2))) 1000)
                           (Fin (Qmake (500 * n) 1)))
          (upto (Z.to_nat 20000) 0) = true.
Proof. vm_compute. reflexivity. Qed.

Lemma fmul_half (n : Z) :
  0 <= n < 20000 ->
  fmul (Fin (Qred (Qmake n 2))) 1000 = Fin (Qmake (500 * n) 1).
Proof.
  intros Hn. pose proof fmul_half_table as T.
  rewrite forallb_forall in T. apply fl_eqb_eq. apply T.
  apply upto_In. lia.
Qed.

(** X7.  "N thousand years ago" gives the int -1000 N, and
    "N-M thousand years ago" the float -500 (N + M), for numbers of up to
    four digits. *)
Theorem thousand_years_ago (d1 d2 : str) :
  forallb is_digit d1 = true -> forallb is_digit d2 = true ->
  (1 <= length d1 <= 4)%nat -> (1 <= length d2 <= 4)%nat ->
  extract_year_from_date (Some (d1 ++ U " thousand years ago"))
  = Ok (Some (PyInt (- (py_int d1 * 1000))))
  /\ extract_year_from_date
       (Some (d1 ++ hyphen :: d2 ++ U " thousand years ago"))
     = Ok (Some (float (- (500 * (py_int d1 + py_int d2))))).
Proof.
  intros H1 H2 L1 L2.
  pose proof (py_int_digits d1 H1) as B1.
  pose proof (py_int_digits d2 H2) as B2.
  pose proof (pow10_bound d1 ltac:(lia)) as P1.
  pose proof (pow10_bound d2 ltac:(lia)) as P2.
  match goal with
  | |- context [U ?t] => let v := eval vm_compute in (U t) in
                         change (U t) with v
  end.
  unfold hyphen. split.
  - clear B1 B2 P1 P2 H2 L2. split_digits d1 H1 L1; cbn [app]; fire;
      reflexivity.
  - split_digits d1 H1 L1; split_digits d2 H2 L2; cbn [app]; fire;
      rewrite truediv_half by lia; rewrite fmul_half by lia; reflexivity.
Qed.

Lemma thousand_years_ago_witness :
  forallb is_digit (U "40") = true /\ forallb is_digit (U "12") = true
  /\ extract_year_from_date (Some (U "40 thousand years ago"))
     = Ok (Some (PyInt (-40000)))
  /\ extract_year_from_date (Some (U "40-12 thousand years ago"))
     = Ok (Some (float (-26000))).
Proof.
  split; [ reflexivity | ]. split; [ reflexivity | ].
  exact (thousand_years_ago (U "40") (U "12") eq_refl eq_refl
           ltac:(vm_compute; lia) ltac:(vm_compute; lia)).
Defined.

End DigitNotations.

(** ** Centuries in Roman numerals *)

Section CenturyTables.

Local Open Scope string_scope.
Local Open Scope Z_scope.

Lemma number_eqb_eq (a b : number) : number_eqb a b = true -> a = b.
Proof.
  destruct a as [x|x], b as [y|y]; simpl; try discriminate.
  - intros H. apply Z.eqb_eq in H. now subst.
  - intros H. f_equal. now apply fl_eqb_eq.
Qed.

Lemma result_eqb_eq (a b : result (option number)) :
  result_eqb a b = true -> a = b.
Proof.
  destruct a as [[v|]|[]], b as [[w|]|[]]; simpl; try discriminate; trivial.
  intros H. do 2 f_equal. now apply number_eqb_eq.
Qed.

Lemma qualifier_table :
  forallb (fun q => forallb (fun e =>
    result_eqb
      (extract_year_from_date (Some (U (fst q ++ " " ++ fst e ++ " century"))))
      (Ok (Some (PyInt (snd e + snd q))))
    && result_eqb
         (extract_year_from_date
            (Some (U (fst q ++ " " ++ fst e ++ " century BC"))))
         (Ok (Some (PyInt (- (snd e + snd q))))))
    century_patterns) qualifiers = true.
Proof. vm_compute. reflexivity. Qed.

(** X8.  For every numeral of the century table and every qualifying word,
    "word numeral century" gives the century's midpoint shifted by the
    word's offset (+38, +12, -38 or 0), and with " BC" the negation of that
    shifted value. *)
Theorem qualifier_offsets (q e : string * Z) :
  In q qualifiers -> In e century_patterns ->
  extract_year_from_date (Some (U (fst q ++ " " ++ fst e ++ " century")))
  = Ok (Some (PyInt (snd e + snd q)))
  /\ extract_year_from_date
       (Some (U (fst q ++ " " ++ fst e ++ " century BC")))
     = Ok (Some (PyInt (- (snd e + snd q)))).
Proof.
  intros Hq He. pose proof qualifier_table as T.
  rewrite forallb_forall in T. specialize (T q Hq).
  rewrite forallb_forall in T. specialize (T e He).
  apply andb_true_iff in T. destruct T as [T1 T2].
  split; now apply result_eqb_eq.
Qed.

Lemma qualifier_offsets_witness :
  extract_year_from_date (Some (U "second half of XIX century BC"))
  = Ok (Some (PyInt (-1862))).
Proof.
  exact (proj2 (qualifier_offsets ("second half of", 12) ("XIX", 1850)
                  ltac:(simpl; tauto) ltac:(simpl; tauto))).
Defined.

Lemma lone_numeral_table :
  forallb (fun e1 => forallb (fun e2 =>
    result_eqb
      (extract_year_from_date (Some (U (fst e1))))
      (if (2 <=? String.length (fst e1))%nat then Ok (Some (PyInt (snd e1)))
       else Ok None)
    && result_eqb
         (extract_year_from_date (Some (U (fst e1 ++ "-" ++ fst e2))))
         (if (String.length (fst e1 ++ "-" ++ fst e2) <? 10)%nat
          then Ok (Some (half (snd e1 + snd e2))) else Ok None)
    && result_eqb
         (extract_year_from_date (Some (U (fst e1 ++ " - " ++ fst e2))))
         (if (String.length (fst e1 ++ " - " ++ fst e2) <? 10)%nat
          then Ok (Some (half (snd e1 + snd e2))) else Ok None))
    century_patterns) century_patterns = true.
Proof. vm_compute. reflexivity. Qed.

(** X12.  A numeral of the century table standing alone gives its century
    only when it has at least two letters; two numerals joined by "-" or
    " - " give the midpoint of their centuries only when the whole text has
    fewer than ten characters, and no match otherwise. *)
Theorem lone_numerals (e1 e2 : string * Z) :
  In e1 century_patterns -> In e2 century_patterns ->
  extract_year_from_date (Some (U (fst e1)))
  = (if (2 <=? String.length (fst e1))%nat then Ok (Some (PyInt (snd e1)))
     else Ok None)
  /\ extract_year_from_date (Some (U (fst e1 ++ "-" ++ fst e2)))
     = (if (String.length (fst e1 ++ "-" ++ fst e2) <? 10)%nat
        then Ok (Some (half (snd e1 + snd e2))) else Ok None)
  /\ extract_year_from_date (Some (U (fst e1 ++ " - " ++ fst e2)))
     = (if (String.length (fst e1 ++ " - " ++ fst e2) <? 10)%nat
        then Ok (Some (half (snd e1 + snd e2))) else Ok None).
Proof.
  intros H1 H2. pose proof lone_numeral_table as T.
  rewrite forallb_forall in T. specialize (T e1 H1).
  rewrite forallb_forall in T. specialize (T e2 H2).
  apply andb_true_iff in T. destruct T as [T T3].
  apply andb_true_iff in T. destruct T as [T1 T2].
  repeat split; now apply result_eqb_eq.
Qed.

Lemma lone_numerals_witness :
  extract_year_from_date (Some (U "XVIII")) = Ok (Some (PyInt 1750))
  /\ extract_year_from_date (Some (U "XVIII-XVII")) = Ok None
  /\ extract_year_from_date (Some (U "XVIII - XVII")) = Ok None.
Proof.
  exact (lone_numerals ("XVIII", 1750) ("XVII", 1650)
           ltac:(simpl; tauto) ltac:(simpl; tauto)).
Defined.

End CenturyTables.

(** ** The display string *)

Section Display.

Local Open Scope Z_scope.

Lemma uint_chars_digits (d : Decimal.uint) :
  forallb is_digit (uint_chars d) = true.
Proof. induction d; cbn [uint_chars forallb]; trivial. Qed.

Lemma py_int_uint_acc (d : Decimal.uint) :
  forall acc : positive,
  fold_left (fun a c => a * 10 + (Z.of_N c - 48)) (uint_chars d) (Z.pos acc)
  = Z.pos (Pos.of_uint_acc d acc).
Proof.
  induction d; intros acc; cbn [uint_chars fold_left Pos.of_uint_acc];
    trivial; rewrite <- IHd; f_equal; lia.
Qed.

Lemma py_int_uint (d : Decimal.uint) :
  py_int (uint_chars d) = Z.of_N (Pos.of_uint d).
Proof.
  unfold py_int.
  induction d; cbn [uint_chars fold_left Pos.of_uint]; trivial;
    try (change (0 * 10 + (Z.of_N 48 - 48)) with 0; exact IHd);
    cbn [Z.of_N]; rewrite <- py_int_uint_acc; reflexivity.
Qed.

(** What [f"{n}"] prints for [n >= 0] is a run of digits that [int] reads
    back as [n]. *)
Lemma py_str_round_trip (n : Z) :
  0 <= n -> forallb is_digit (py_str n) = true /\ py_int (py_str n) = n.
Proof.
  intros Hn. destruct n as [|p|p]; [ split; reflexivity | | lia ].
  unfold py_str. split; [ apply uint_chars_digits | ].
  rewrite py_int_uint, Unsigned.of_to. reflexivity.
Qed.

Lemma py_trunc_abs (y : number) (n : Z) :
  py_trunc (py_abs y) = Ok n -> 0 <= n.
Proof.
  destruct y as [z|[q| |]]; cbn [py_abs py_trunc]; try discriminate;
    intros H; injection H as <-; [ lia | ].
  cbn [Qnum Qden]. apply Z.quot_pos; lia.
Qed.

Lemma py_abs_positive (y : number) :
  ltb y 0 = false -> py_trunc (py_abs y) = py_trunc y.
Proof.
  destruct y as [z|[[a b]| |]]; unfold ltb, cmp; cbn [py_abs py_trunc];
    trivial.
  - destruct (Z.compare_spec z 0); try discriminate; intros _;
      rewrite Z.abs_eq; trivial; lia.
  - unfold Qcompare. cbn [Qnum Qden inject_Z].
    destruct (Z.compare_spec (a * 1) (0 * Z.pos b)); try discriminate;
      intros _; rewrite Z.abs_eq; trivial; lia.
Qed.

(** X9.  The display string of a row: empty when no year is found, and else the
    whole part of the year's magnitude, in digits without a sign, that
    [int] reads back, followed by [" BC"] for a year below zero and by
    [" AD"] otherwise. *)
Theorem display_string (r : row) (s : str) :
  create_date_normalized r = Ok s ->
  match year_of_row r with
  | Ok (Some y) =>
    exists n : Z,
      0 <= n /\ py_trunc (py_abs y) = Ok n
      /\ forallb is_digit (py_str n) = true
      /\ py_int (py_str n) = n
      /\ s = py_str n ++ (if ltb y 0 then U " BC"%string else U " AD"%string)
  | Ok None => s = []
  | Err _ => False
  end.
Proof.
  unfold create_date_normalized.
  destruct (year_of_row r) as [[y|]|e]; [ | congruence | discriminate ].
  destruct (ltb y 0) eqn:E.
  - destruct (py_trunc (py_abs y)) as [n|e] eqn:T; [ | discriminate ].
    intros H. injection H as <-. exists n.
    pose proof (py_trunc_abs y n T) as Hn.
    destruct (py_str_round_trip n Hn) as [Hd Hi]. auto.
  - rewrite <- (py_abs_positive y E).
    destruct (py_trunc (py_abs y)) as [n|e] eqn:T; [ | discriminate ].
    intros H. injection H as <-. exists n.
    pose proof (py_trunc_abs y n T) as Hn.
    destruct (py_str_round_trip n Hn) as [Hd Hi]. auto.
Qed.

Lemma display_string_witness :
  create_date_normalized (Row None (Some (U "7-6 BC"%string)) None)
  = Ok (U "6 BC"%string)
  /\ match year_of_row (Row None (Some (U "7-6 BC"%string)) None) with
     | Ok (Some y) =>
       exists n : Z,
         0 <= n /\ py_trunc (py_abs y) = Ok n
         /\ forallb is_digit (py_str n) = true
         /\ py_int (py_str n) = n
         /\ U "6 BC"%string
            = py_str n ++ (if ltb y 0 then U " BC"%string else U " AD"%string)
     | Ok None => U "6 BC"%string = []
     | Err _ => False
     end.
Proof.
  split; [ vm_compute; reflexivity | ].
  exact (display_string (Row None (Some (U "7-6 BC"%string)) None)
           (U "6 BC"%string) ltac:(vm_compute; reflexivity)).
Defined.

End Display.

(** ** The three columns of a row *)

Section Rows.

Lemma run_length_le (ic : bool) (p : cset) (k : nat) :
  forall s, (run_length ic p (Some k) s <= k)%nat.
Proof.
  induction k as [|k IH]; intros s; [ destruct s; simpl; lia | ].
  destruct s as [|c s]; simpl; [ lia | ].
  destruct (cset_test ic p c); [ | lia ].
  specialize (IH s). simpl. lia.
Qed.

(** A full run: the first [k] characters are there and all in the class. *)
Lemma run_length_full (ic : bool) (p : cset) (k : nat) :
  forall s, run_length ic p (Some k) s = k ->
  forall i, (i < k)%nat ->
  exists c, nth_error s i = Some c /\ cset_test ic p c = true.
Proof.
  induction k as [|k IH]; intros s H i Hi; [ lia | ].
  destruct s as [|c s]; simpl in H; [ discriminate | ].
  destruct (cset_test ic p c) eqn:E; [ | discriminate ].
  injection H as H. destruct i as [|i]; simpl.
  - eauto.
  - apply (IH s H). lia.
Qed.

Lemma rmatch_four (s : str) (st : mstate) :
  rmatch false s (rng CDigit 4 4) st =
  if (run_length false CDigit (Some 4) (skipn (fst st) s) =? 4)%nat
  then [(fst st + 4, snd st)%nat] else [].
Proof.
  unfold rng. cbn [rmatch].
  pose proof (run_length_le false CDigit 4 (skipn (fst st) s)) as Hle.
  destruct (run_length false CDigit (Some 4) (skipn (fst st) s))
    as [|[|[|[|[|n]]]]]; try reflexivity. lia.
Qed.

Lemma year_text_shape (s : str) :
  re_match false year_text_re s =
  if (run_length false CDigit (Some 4) s =? 4)%nat && at_end s 4
  then Some [] else None.
Proof.
  unfold re_match, year_text_re. cbn [cat fold_right].
  cbn [rmatch flat_map app fst snd Nat.eqb]. rewrite rmatch_four.
  cbn [fst snd Nat.add]. change (skipn 0 s) with s.
  destruct (run_length false CDigit (Some 4) s =? 4)%nat; [ | reflexivity ].
  cbn [flat_map app rmatch fst snd andb].
  destruct (at_end s 4); reflexivity.
Qed.

Lemma range_text_shape (s : str) :
  re_match false range_text_re s =
  if (run_length false CDigit (Some 4) s =? 4)%nat
     && match nth_error s 4 with Some c => (c =? 45)%N | None => false end
     && (run_length false CDigit (Some 4) (skipn 5 s) =? 4)%nat
     && at_end s 9
  then Some [] else None.
Proof.
  unfold re_match, range_text_re.
  change (lit "-") with (Cat (Sym (CChar 45%N)) Eps).
  cbn [cat fold_right].
  cbn [rmatch flat_map app fst snd Nat.eqb]. rewrite rmatch_four.
  cbn [fst snd Nat.add]. change (skipn 0 s) with s.
  destruct (run_length false CDigit (Some 4) s =? 4)%nat; [ | reflexivity ].
  cbn [flat_map app rmatch fst snd andb cset_test].
  destruct (nth_error s 4) as [c|]; [ | reflexivity ].
  destruct (c =? 45)%N; [ | reflexivity ].
  cbn [flat_map app rmatch fst snd andb]. rewrite rmatch_four.
  cbn [fst snd Nat.add].
  destruct (run_length false CDigit (Some 4) (skipn 5 s) =? 4)%nat;
    [ | reflexivity ].
  cbn [flat_map app rmatch fst snd andb].
  destruct (at_end s 9); reflexivity.
Qed.

Lemma year_prefix_shape (s : str) :
  re_match false year_prefix_re s =
  if (run_length false CDigit (Some 4) s =? 4)%nat
  then Some [(1, (0, 4))%nat] else None.
Proof.
  unfold re_match, year_prefix_re, four_digits. cbn [cat fold_right].
  cbn [rmatch flat_map app fst snd Nat.eqb map]. rewrite rmatch_four.
  cbn [fst snd Nat.add]. change (skipn 0 s) with s.
  destruct (run_length false CDigit (Some 4) s =? 4)%nat; reflexivity.
Qed.

Lemma run_length_zero (ic : bool) (p : cset) (s : str) :
  run_length ic p (Some 0%nat) s = 0%nat.
Proof. now destruct s. Qed.

Lemma digit_run (u : str) (i : nat) :
  run_length false CDigit (Some 4) u = 4%nat -> (i < 4)%nat ->
  exists c, nth_error u i = Some c /\ is_digit c = true.
Proof. intros H Hi. exact (run_length_full false CDigit 4 u H i Hi). Qed.

Lemma at_end_inside (s : str) (i : nat) :
  (S i < length s)%nat -> at_end s i = false.
Proof.
  intros H. unfold at_end.
  rewrite (proj2 (Nat.leb_gt _ _)) by lia.
  rewrite (proj2 (Nat.eqb_neq _ _)) by lia. reflexivity.
Qed.

Lemma tag_position (t : str) (x y : char) :
  nth_error (t ++ [32; x; y]%N) (length t) = Some 32%N.
Proof. rewrite nth_error_app2 by lia. now rewrite Nat.sub_diag. Qed.

(** Text that ends in a space and two more characters is no four-digit
    year. *)
Lemma year_text_tagged (t : str) (x y : char) :
  re_match false year_text_re (t ++ [32; x; y]%N) = None.
Proof.
  rewrite year_text_shape. set (s := t ++ [32; x; y]%N).
  destruct (run_length false CDigit (Some 4) s =? 4)%nat eqn:E1; trivial.
  apply Nat.eqb_eq in E1. cbn [andb].
  destruct (Nat.lt_ge_cases (length t) 4) as [Hl|Hl].
  - destruct (digit_run s (length t) E1 Hl) as (c & Hc & Hd).
    unfold s in Hc. rewrite tag_position in Hc. injection Hc as <-.
    discriminate.
  - rewrite at_end_inside; trivial.
    unfold s. rewrite length_app. simpl. lia.
Qed.

(** Nor is it a range of two four-digit years. *)
Lemma range_text_tagged (t : str) (x y : char) :
  re_match false range_text_re (t ++ [32; x; y]%N) = None.
Proof.
  rewrite range_text_shape. set (s := t ++ [32; x; y]%N).
  destruct (run_length false CDigit (Some 4) s =? 4)%nat eqn:E1; trivial.
  apply Nat.eqb_eq in E1. cbn [andb].
  destruct (nth_error s 4) as [c4|] eqn:E4; trivial.
  destruct (c4 =? 45)%N eqn:E45; trivial. apply N.eqb_eq in E45. subst c4.
  cbn [andb].
  destruct (run_length false CDigit (Some 4) (skipn 5 s) =? 4)%nat eqn:E2;
    trivial.
  apply Nat.eqb_eq in E2. cbn [andb].
  assert (Hs : nth_error s (length t) = Some 32%N) by apply tag_position.
  destruct (Nat.lt_ge_cases (length t) 9) as [Hl|Hl].
  - exfalso.
    destruct (Nat.lt_ge_cases (length t) 4) as [Ha|Ha].
    { destruct (digit_run s (length t) E1 Ha) as (c & Hc & Hd).
      rewrite Hs in Hc. injection Hc as <-. discriminate. }
    destruct (Nat.eq_dec (length t) 4) as [Hb|Hb].
    { rewrite Hb, E4 in Hs. discriminate. }
    destruct (digit_run (skipn 5 s) (length t - 5) E2 ltac:(lia))
      as (c & Hc & Hd).
    rewrite nth_error_skipn in Hc.
    replace (5 + (length t - 5))%nat with (length t) in Hc by lia.
    rewrite Hs in Hc. injection Hc as <-. discriminate.
  - rewrite at_end_inside; trivial.
    unfold s. rewrite length_app. simpl. lia.
Qed.

Lemma year_of_row_stages (r : row) :
  year_of_row r =
  match early_year r with
  | Ok None => year_of_row (Row None None (date_normalized r))
  | other => other
  end.
Proof.
  destruct r as [tl d dn]. unfold early_year, year_of_row.
  cbn [year_for_timeline date date_normalized].
  destruct tl as [[tv|x]|]; try reflexivity.
  - destruct (re_match false (cat [Bol; four_digits]) tv); try reflexivity.
    destruct d as [s|]; try reflexivity.
    destruct (extract_year_from_date (Some s)) as [[y|]|e]; reflexivity.
  - destruct d as [s|]; try reflexivity.
    destruct (extract_year_from_date (Some s)) as [[y|]|e]; reflexivity.
Qed.

Lemma late_year_shape (c : char) (s : str) :
  year_of_row (Row None None (Some (c :: s))) =
  match re_match false range_text_re (c :: s) with
  | Some _ =>
    match truediv (py_int_ws (nth 0 (split 45%N (c :: s)) [])
                   + py_int_ws (nth 1 (split 45%N (c :: s)) [])) 2 with
    | Ok x => Ok (Some (PyFloat x))
    | Err e => Err e
    end
  | None =>
    match re_match false year_text_re (c :: s) with
    | Some _ => Ok (Some (PyInt (py_int_ws (c :: s))))
    | None => Ok None
    end
  end.
Proof. reflexivity. Qed.

Lemma late_year_tagged (t : str) (x y : char) :
  year_of_row (Row None None (Some (t ++ [32; x; y]%N))) = Ok None.
Proof.
  destruct (t ++ [32; x; y]%N) as [|c s] eqn:E.
  - destruct t; discriminate.
  - rewrite late_year_shape, <- E.
    now rewrite range_text_tagged, year_text_tagged.
Qed.

Local Open Scope string_scope.

(** X10.  In [main] the column [date_normalized] is rewritten before the
    period is assigned, and its new content is never read as a year: the
    period that [main] assigns is the one that [year_for_timeline] and
    [date] alone give. *)
Theorem main_ignores_date_normalized (r : row) (date_norm : str)
        (period : string) :
  main_row r = Ok (date_norm, period) ->
  assign_period_category (Row (year_for_timeline r) (date r) None)
  = Ok period.
Proof.
  intros H. unfold main_row in H.
  destruct (create_date_normalized r) as [dn|] eqn:Ec; [ | discriminate ].
  destruct (assign_period_category
              (Row (year_for_timeline r) (date r) (Some dn)))
    as [p|] eqn:Ea; [ | discriminate ].
  injection H as -> ->.
  unfold assign_period_category in *. unfold create_date_normalized in Ec.
  rewrite year_of_row_stages in Ec. rewrite year_of_row_stages in Ea.
  change (early_year (Row (year_for_timeline r) (date r) (Some date_norm)))
    with (early_year r) in Ea.
  fold (early_year r). cbn [date_normalized] in Ea.
  destruct (early_year r) as [[y|]|e]; try discriminate; trivial.
  destruct (year_of_row (Row None None (date_normalized r)))
    as [[y|]|e]; try discriminate.
  - change (U " BC") with [32; 66; 67]%N in Ec.
    change (U " AD") with [32; 65; 68]%N in Ec.
    destruct (ltb y 0).
    + destruct (py_trunc (py_abs y)); [ | discriminate ].
      injection Ec as <-. now rewrite late_year_tagged in Ea.
    + destruct (py_trunc y); [ | discriminate ].
      injection Ec as <-. now rewrite late_year_tagged in Ea.
  - injection Ec as <-. exact Ea.
Qed.

Lemma main_ignores_date_normalized_witness :
  assign_period_category (Row None None (Some (U "1601-1700")))
  = Ok "Cossack Hetmanate Period"
  /\ main_row (Row None None (Some (U "1601-1700")))
     = Ok (U "1650 AD", "Unknown Period")
  /\ assign_period_category (Row None None None) = Ok "Unknown Period".
Proof.
  split; [ vm_compute; reflexivity | ]. split; [ vm_compute; reflexivity | ].
  exact (main_ignores_date_normalized (Row None None (Some (U "1601-1700")))
           (U "1650 AD") "Unknown Period" eq_refl).
Defined.

Local Open Scope Z_scope.

Ltac digit_hyps H :=
  cbn [forallb] in H;
  repeat (let H1 := fresh "Hd" in
          apply andb_true_iff in H; destruct H as [H1 H]);
  clear H.

Ltac four_chars d H L :=
  destruct d as [|? [|? [|? [|? [|]]]]]; simpl length in L; try lia;
  digit_hyps H.

Ltac run_digits :=
  repeat (cbn [run_length cset_test option_map Nat.pred skipn nth_error];
          match goal with
          | H : is_digit ?c = true |- context [is_digit ?c] => rewrite H
          end);
  cbn [run_length cset_test option_map Nat.pred skipn nth_error].

(** X11.  A [year_for_timeline] string that starts with four digits gives
    the year, whatever follows them and whatever the other two columns
    hold; a number in that column is the year itself. *)
Theorem timeline_comes_first (d rest : str) (dt dn : option str) :
  forallb is_digit d = true -> length d = 4%nat ->
  year_of_row (Row (Some (CStr (d ++ rest)%list)) dt dn)
  = Ok (Some (PyInt (py_int d)))
  /\ assign_period_category (Row (Some (CStr (d ++ rest)%list)) dt dn)
     = Ok (period_of_year (PyInt (py_int d)))
  /\ forall x : fl,
       assign_period_category (Row (Some (CNum x)) dt dn)
       = Ok (period_of_year (PyFloat x)).
Proof.
  intros H L.
  assert (E : year_of_row (Row (Some (CStr (d ++ rest)%list)) dt dn)
              = Ok (Some (PyInt (py_int d)))).
  { four_chars d H L. cbn [app]. unfold year_of_row.
    cbn [year_for_timeline].
    change (cat [Bol; four_digits]) with year_prefix_re.
    rewrite year_prefix_shape. run_digits. rewrite run_length_zero.
    reflexivity. }
  split; [ exact E | ]. split.
  - unfold assign_period_category. now rewrite E.
  - reflexivity.
Qed.

Lemma timeline_comes_first_witness :
  forallb is_digit (U "1900") = true
  /\ assign_period_category
       (Row (Some (CStr (U "1900-01-01"))) (Some long_decade) None)
     = Ok "Ukraine under the Russian Empire".
Proof.
  split; [ reflexivity | ].
  exact (proj1 (proj2 (timeline_comes_first (U "1900") (U "-01-01")
                         (Some long_decade) None eq_refl eq_refl))).
Defined.

Lemma digit_not_hyphen (c : char) : is_digit c = true -> (c =? 45)%N = false.
Proof.
  intros H. apply negb_true_iff.
  exact (digit_forall (fun d => negb (d =? 45)%N) c eq_refl H).
Qed.

Lemma py_int_ws_digits (d : str) :
  forallb is_digit d = true -> py_int_ws d = py_int d.
Proof.
  intros H. unfold py_int_ws. f_equal. apply strip_solid.
  rewrite forallb_forall in *. intros c Hc.
  apply negb_true_iff. apply digit_not_space. now apply H.
Qed.

Lemma date_stage (dt : option str) :
  match dt with
  | Some d => extract_year_from_date (Some d)
  | None => Ok None
  end = extract_year_from_date dt.
Proof. now destruct dt. Qed.

(** X13.  When the other two columns give no year, a [date_normalized] of
    the form "YYYY-YYYY" gives the midpoint of the two years, and one of
    the form "YYYY" that year. *)
Theorem date_normalized_fallback (d1 d2 : str) (dt : option str) :
  forallb is_digit d1 = true -> forallb is_digit d2 = true ->
  length d1 = 4%nat -> length d2 = 4%nat ->
  extract_year_from_date dt = Ok None ->
  year_of_row (Row None dt (Some (d1 ++ hyphen :: d2)%list))
  = Ok (Some (half (py_int d1 + py_int d2)))
  /\ year_of_row (Row None dt (Some d1)) = Ok (Some (PyInt (py_int d1))).
Proof.
  intros H1 H2 L1 L2 Hdt.
  pose proof (py_int_digits d1 H1) as B1.
  pose proof (py_int_digits d2 H2) as B2.
  rewrite L1 in B1. rewrite L2 in B2.
  change (10 ^ Z.of_nat 4) with 10000 in *.
  pose proof (py_int_ws_digits d1 H1) as W1.
  pose proof (py_int_ws_digits d2 H2) as W2.
  split.
  - rewrite year_of_row_stages. unfold early_year, year_of_row at 1.
    cbn [year_for_timeline date date_normalized].
    rewrite date_stage, Hdt.
    four_chars d1 H1 L1. four_chars d2 H2 L2. cbn [app].
    rewrite late_year_shape, range_text_shape. unfold hyphen.
    run_digits. cbn [Nat.eqb andb N.eqb Pos.eqb].
    unfold at_end. cbn [length Nat.leb Nat.eqb orb andb].
    cbn [split].
    repeat match goal with
           | H : is_digit ?c = true |- context [(?c =? 45)%N] =>
             rewrite (digit_not_hyphen c H)
           end.
    cbn [split N.eqb Pos.eqb nth]. rewrite W1, W2.
    rewrite truediv_half by lia. reflexivity.
  - rewrite year_of_row_stages. unfold early_year, year_of_row at 1.
    cbn [year_for_timeline date date_normalized].
    rewrite date_stage, Hdt.
    four_chars d1 H1 L1.
    rewrite late_year_shape, range_text_shape, year_text_shape.
    run_digits. cbn [Nat.eqb andb].
    unfold at_end. cbn [length Nat.leb Nat.eqb orb andb].
    now rewrite W1.
Qed.

Lemma date_normalized_fallback_witness :
  forallb is_digit (U "1601") = true /\ forallb is_digit (U "1700") = true
  /\ extract_year_from_date (Some (U "unknown")) = Ok None
  /\ year_of_row (Row None (Some (U "unknown")) (Some (U "1601-1700")))
     = Ok (Some (PyFloat (Fin (3301 # 2)))).
Proof.
  split; [ reflexivity | ]. split; [ reflexivity | ].
  split; [ vm_compute; reflexivity | ].
  exact (proj1 (date_normalized_fallback (U "1601") (U "1700")
                  (Some (U "unknown")) eq_refl eq_refl eq_refl eq_refl
                  ltac:(vm_compute; reflexivity))).
Defined.

End Rows.

(** ** Ranges of centuries *)

Section CenturyRanges.

Local Open Scope string_scope.
Local Open Scope Z_scope.

Lemma outcome_eqb_eq (a b : outcome) : outcome_eqb a b = true -> a = b.
Proof.
  destruct a as [|v|[]], b as [|w|[]]; simpl; try discriminate; trivial.
  intros H. now rewrite (number_eqb_eq v w H).
Qed.

Lemma century_range_table :
  forallb (fun e1 => forallb (fun e2 =>
    result_eqb
      (extract_year_from_date
         (Some (U (fst e1 ++ "-" ++ fst e2 ++ " century AD"))))
      (Ok (Some (PyInt (snd e2))))
    && result_eqb
         (extract_year_from_date
            (Some (U (fst e1 ++ "-" ++ fst e2 ++ " century BC"))))
         (Ok (Some (PyInt (if snd e2 <? 800 then - snd e2 else snd e2))))
    && result_eqb
         (extract_year_from_date
            (Some (U (fst e1 ++ " century BC - " ++ fst e2 ++ " century"))))
         (Ok (Some (PyInt (if snd e1 <? 800 then - snd e1
                           else Z.max (snd e1) (snd e2)))))
    && outcome_eqb
         (apply_rule range_match
            (U (fst e1 ++ "-" ++ fst e2 ++ " century AD")))
         (Return (half (snd e1 + snd e2)))
    && outcome_eqb
         (apply_rule range_match
            (U (fst e1 ++ "-" ++ fst e2 ++ " century BC")))
         (Return (neg (half (snd e1 + snd e2))))
    && outcome_eqb
         (apply_rule complex_match
            (U (fst e1 ++ " century BC - " ++ fst e2 ++ " century")))
         (Return (half (snd e2 - snd e1))))
    century_patterns) century_patterns = true.
Proof. vm_compute. reflexivity. Qed.

(** C7.  A range of two centuries does not give the midpoint.  For any two
    numerals of the century table, "N-M century AD" gives the century of M
    alone, as an int; "N-M century BC" gives the century of M, negated only
    when M is at most VIII; and "N century BC - M century" gives the
    negated century of N when N is at most VIII and the later of the two
    centuries, unsigned, otherwise.  The two blocks written for these
    texts, run on the same text, give the midpoint (low + high) / 2 with
    its sign; the loops over single centuries return before them. *)
Theorem century_range_not_midpoint (e1 e2 : string * Z) :
  In e1 century_patterns -> In e2 century_patterns ->
  extract_year_from_date
    (Some (U (fst e1 ++ "-" ++ fst e2 ++ " century AD")))
  = Ok (Some (PyInt (snd e2)))
  /\ extract_year_from_date
       (Some (U (fst e1 ++ "-" ++ fst e2 ++ " century BC")))
     = Ok (Some (PyInt (if snd e2 <? 800 then - snd e2 else snd e2)))
  /\ extract_year_from_date
       (Some (U (fst e1 ++ " century BC - " ++ fst e2 ++ " century")))
     = Ok (Some (PyInt (if snd e1 <? 800 then - snd e1
                        else Z.max (snd e1) (snd e2))))
  /\ apply_rule range_match (U (fst e1 ++ "-" ++ fst e2 ++ " century AD"))
     = Return (half (snd e1 + snd e2))
  /\ apply_rule range_match (U (fst e1 ++ "-" ++ fst e2 ++ " century BC"))
     = Return (neg (half (snd e1 + snd e2)))
  /\ apply_rule complex_match
       (U (fst e1 ++ " century BC - " ++ fst e2 ++ " century"))
     = Return (half (snd e2 - snd e1)).
Proof.
  intros H1 H2. pose proof century_range_table as T.
  rewrite forallb_forall in T. specialize (T e1 H1).
  rewrite forallb_forall in T. specialize (T e2 H2).
  repeat match type of T with
         | _ && _ = true =>
           let R := fresh "R" in
           apply andb_true_iff in T; destruct T as [T R]
         end.
  split; [ now apply result_eqb_eq | ].
  split; [ now apply result_eqb_eq | ].
  split; [ now apply result_eqb_eq | ].
  split; [ now apply outcome_eqb_eq | ].
  split; now apply outcome_eqb_eq.
Qed.

Lemma century_range_not_midpoint_witness :
  (extract_year_from_date (Some (U "V-VI century AD"))
   = Ok (Some (PyInt 550))
   /\ apply_rule range_match (U "V-VI century AD")
      = Return (PyFloat (Fin 500)))
  /\ (extract_year_from_date (Some (U "IX-X century BC"))
      = Ok (Some (PyInt 950))
      /\ apply_rule range_match (U "IX-X century BC")
         = Return (PyFloat (Fin (-900))))
  /\ (extract_year_from_date (Some (U "VI century BC - IV century"))
      = Ok (Some (PyInt (-550)))
      /\ apply_rule complex_match (U "VI century BC - IV century")
         = Return (PyFloat (Fin (-100)))).
Proof.
  pose proof (century_range_not_midpoint ("V", 450) ("VI", 550)
                ltac:(simpl; tauto) ltac:(simpl; tauto))
    as (A1 & _ & _ & A4 & _ & _).
  pose proof (century_range_not_midpoint ("IX", 850) ("X", 950)
                ltac:(simpl; tauto) ltac:(simpl; tauto))
    as (_ & B2 & _ & _ & B5 & _).
  pose proof (century_range_not_midpoint ("VI", 550) ("IV", 350)
                ltac:(simpl; tauto) ltac:(simpl; tauto))
    as (_ & _ & C3 & _ & _ & C6).
  split; [ split; [ exact A1 | exact A4 ] | ].
  split; [ split; [ exact B2 | exact B5 ] | ].
  split; [ exact C3 | exact C6 ].
Defined.

End CenturyRanges.
